(** * YELPH backend: the Yelp business normalizer, the response extractor,
      the chat client, the calendar endpoints and service and the CORS
      setting, embedded from [backend/yelp_service.py], [backend/models.py],
      [backend/main.py], [backend/calendar_service.py] and
      [backend/config.py].

    The Python code is embedded shallowly: JSON-decoded values are an
    inductive type, exceptions are an explicit result type, the [try]/[except]
    blocks are written out, floats are IEEE binary64 (the kernel's primitive
    floats), and the process-wide OAuth store is a finite map threaded through
    the request handlers. *)

From Stdlib Require Import ZArith String Ascii List Bool Lia.
From Stdlib Require Import PrimFloat SpecFloat FloatOps.
From stdpp Require Import gmap strings pretty.

Open Scope string_scope.
Open Scope list_scope.
Open Scope Z_scope.

(* ===================================================================== *)
(** * The Python runtime the services run on *)
(* ===================================================================== *)

Module Py.

(** What [response.json()] can produce.  A [str] is a sequence of code points
    below 256 (CPython's one-byte string representation); a [dict] keeps its
    insertion order and is looked up at its first binding of a key. *)
#[warnings="-register-all"]
Inductive value : Type :=
| VNone
| VBool (b : bool)
| VInt (n : Z)
| VFloat (x : float)
| VStr (s : string)
| VList (items : list value)
| VDict (entries : list (string * value)).

(** The exception classes that occur; every one of them derives from
    [Exception] (Starlette's [HTTPException] included). *)
Inductive exn : Type :=
| TypeError
| AttributeError
| KeyError
| OverflowError
| ValidationError
| HTTPException (status_code : Z) (detail : value)
| ProviderError (message : string).

Inductive result (A : Type) : Type :=
| Ret (a : A)
| Raise (e : exn).
Arguments Ret {A} a.
Arguments Raise {A} e.

Definition bind {A B : Type} (m : result A) (k : A -> result B) : result B :=
  match m with
  | Ret a => k a
  | Raise e => Raise e
  end.

(** [try: body  except Exception as e: handler(e)]: every class of [exn] is
    a subclass of [Exception], so the handler sees all of them. *)
Definition try_except {A : Type} (body : result A) (handler : exn -> result A)
  : result A :=
  match body with
  | Ret a => Ret a
  | Raise e => handler e
  end.

Definition is_dict (v : value) : bool :=
  match v with VDict _ => true | _ => false end.

Definition is_list (v : value) : bool :=
  match v with VList _ => true | _ => false end.

Fixpoint lookup_key (k : string) (d : list (string * value)) : option value :=
  match d with
  | [] => None
  | (k', v) :: rest => if String.eqb k k' then Some v else lookup_key k rest
  end.

Definition has_key (k : string) (d : list (string * value)) : bool :=
  match lookup_key k d with
  | Some _ => true
  | None => false
  end.

(** [bool(v)]. *)
Definition truthy (v : value) : bool :=
  match v with
  | VNone => false
  | VBool b => b
  | VInt n => negb (n =? 0)
  | VFloat x => negb (PrimFloat.eqb x 0%float)
  | VStr s => negb (String.eqb s EmptyString)
  | VList items => match items with [] => false | _ :: _ => true end
  | VDict entries => match entries with [] => false | _ :: _ => true end
  end.

(** [needle in hay] on two strings. *)
Fixpoint is_substring (needle hay : string) : bool :=
  String.prefix needle hay ||
  match hay with
  | EmptyString => false
  | String _ rest => is_substring needle rest
  end.

Definition is_str (k : string) (v : value) : bool :=
  match v with VStr s => String.eqb k s | _ => false end.

(** [k in v] for a string literal [k]: key membership on a dict, substring on
    a str, element membership on a list, [TypeError] on the rest. *)
Definition py_in (k : string) (v : value) : result bool :=
  match v with
  | VDict entries => Ret (has_key k entries)
  | VStr s => Ret (is_substring k s)
  | VList items => Ret (existsb (is_str k) items)
  | _ => Raise TypeError
  end.

(** [v[k]] for a string literal [k]. *)
Definition py_getitem (v : value) (k : string) : result value :=
  match v with
  | VDict entries =>
      match lookup_key k entries with
      | Some x => Ret x
      | None => Raise KeyError
      end
  | _ => Raise TypeError
  end.

Definition dict_get (entries : list (string * value)) (k : string) (default : value)
  : value :=
  match lookup_key k entries with
  | Some x => x
  | None => default
  end.

(** [v.get(k, default)]; only a dict has the method. *)
Definition py_get (v : value) (k : string) (default : value) : result value :=
  match v with
  | VDict entries => Ret (dict_get entries k default)
  | _ => Raise AttributeError
  end.

(** The items a [for] loop over [v] visits. *)
Definition py_iter (v : value) : result (list value) :=
  match v with
  | VList items => Ret items
  | VDict entries => Ret (map (fun kv => VStr (fst kv)) entries)
  | VStr s => Ret (map (fun c => VStr (String c EmptyString)) (list_ascii_of_string s))
  | _ => Raise TypeError
  end.

(** ** Floats *)

(** [float(n)] for an int: round to nearest even, [OverflowError] beyond the
    binary64 range. *)
Definition float_of_int (n : Z) : result float :=
  match binary_normalize prec emax n 0 false with
  | S754_infinity _ => Raise OverflowError
  | sf => Ret (SF2Prim sf)
  end.

(** The left operand of [v * <float>] as a float. *)
Definition float_operand (v : value) : result float :=
  match v with
  | VFloat x => Ret x
  | VInt n => float_of_int n
  | VBool b => Ret (if b then 1%float else 0%float)
  | _ => Raise TypeError
  end.

Definition py_mul_float (v : value) (y : float) : result float :=
  bind (float_operand v) (fun x => Ret (PrimFloat.mul x y)).

(** [num / den] rounded to the nearest integer, ties to even ([0 < den]). *)
Definition round_half_even (num den : Z) : Z :=
  let q := num / den in
  match (2 * (num mod den) ?= den) with
  | Lt => q
  | Gt => q + 1
  | Eq => if Z.even q then q else q + 1
  end.

(** [|x| * 10] rounded to an integer, for a finite [x = m * 2^e]. *)
Definition tenths (m : positive) (e : Z) : Z :=
  if 0 <=? e then 10 * Z.pos m * 2 ^ e
  else round_half_even (10 * Z.pos m) (2 ^ (- e)).

Definition sign_str (s : bool) : string := if s then "-" else EmptyString.

(** [f"{x:.1f}"]: correctly rounded, one digit after the point. *)
Definition format_1f (x : float) : string :=
  match Prim2SF x with
  | S754_nan => "nan"
  | S754_infinity s => (sign_str s ++ "inf")%string
  | S754_zero s => (sign_str s ++ "0.0")%string
  | S754_finite s m e =>
      let t := tenths m e in
      (sign_str s ++ pretty (t / 10) ++ "." ++ pretty (t mod 10))%string
  end.

(** ** The built-in [hash] *)

(** What is fixed when the interpreter starts and the program cannot see:
    the SipHash key ([PYTHONHASHSEED], random by default) and the hashes that
    are derived from object addresses. *)
Record hash_secret : Type := {
  siphash_k0 : Z;
  siphash_k1 : Z;
  none_hash : Z;
  nan_hash : Z
}.

Definition u64 (x : Z) : Z := x mod 2 ^ 64.

Definition rotl64 (x b : Z) : Z :=
  u64 (Z.lor (Z.shiftl x b) (Z.shiftr x (64 - b))).

Definition sip_state : Type := (Z * Z * Z * Z)%type.

Definition half_round (st : sip_state) (s t : Z) : sip_state :=
  let '(a, b, c, d) := st in
  let a := u64 (a + b) in
  let c := u64 (c + d) in
  let b := Z.lxor (rotl64 b s) a in
  let d := Z.lxor (rotl64 d t) c in
  let a := rotl64 a 32 in
  (a, b, c, d).

Definition single_round (st : sip_state) : sip_state :=
  let '(v0, v1, v2, v3) := half_round st 13 16 in
  let '(v2, v1, v0, v3) := half_round (v2, v1, v0, v3) 17 21 in
  (v0, v1, v2, v3).

(** Little-endian value of at most eight bytes. *)
Fixpoint le_word (bytes : list Z) : Z :=
  match bytes with
  | [] => 0
  | b :: rest => b + 256 * le_word rest
  end.

Definition absorb (st : sip_state) (mi : Z) : sip_state :=
  let '(v0, v1, v2, v3) := st in
  let '(v0, v1, v2, v3) := single_round (v0, v1, v2, Z.lxor v3 mi) in
  (Z.lxor v0 mi, v1, v2, v3).

(** The [while (src_sz >= 8)] loop; returns the state and the tail. *)
Fixpoint sip_blocks (fuel : nat) (st : sip_state) (bytes : list Z)
  : sip_state * list Z :=
  match fuel with
  | O => (st, bytes)
  | S fuel' =>
      if (8 <=? Z.of_nat (length bytes))
      then sip_blocks fuel' (absorb st (le_word (firstn 8 bytes))) (skipn 8 bytes)
      else (st, bytes)
  end.

(** [siphash13] of CPython's [pyhash.c]. *)
Definition siphash13 (k0 k1 : Z) (src : list Z) : Z :=
  let b := u64 (Z.shiftl (Z.of_nat (length src)) 56) in
  let st0 := (Z.lxor k0 0x736f6d6570736575, Z.lxor k1 0x646f72616e646f6d,
              Z.lxor k0 0x6c7967656e657261, Z.lxor k1 0x7465646279746573) in
  let '(st, tail) := sip_blocks (length src) st0 src in
  let b := Z.lor b (le_word tail) in
  let '(v0, v1, v2, v3) := absorb st b in
  let v2 := Z.lxor v2 0xff in
  let '(v0, v1, v2, v3) := single_round (single_round (single_round (v0, v1, v2, v3))) in
  Z.lxor (Z.lxor v0 v1) (Z.lxor v2 v3).

(** A 64-bit pattern read as [Py_hash_t]; [-1] is reserved for errors. *)
Definition as_hash (x : Z) : Z :=
  let h := if x <? 2 ^ 63 then x else x - 2 ^ 64 in
  if h =? -1 then -2 else h.

Definition bytes_of_str (s : string) : list Z :=
  map (fun c => Z.of_N (N_of_ascii c)) (list_ascii_of_string s).

Definition hash_str (hs : hash_secret) (s : string) : Z :=
  match s with
  | EmptyString => 0
  | _ => as_hash (siphash13 (siphash_k0 hs) (siphash_k1 hs) (bytes_of_str s))
  end.

Definition hash_modulus : Z := 2 ^ 61 - 1.

Definition signed_hash (negative : bool) (magnitude : Z) : Z :=
  let h := if negative then - magnitude else magnitude in
  if h =? -1 then -2 else h.

Definition hash_int (n : Z) : Z :=
  signed_hash (n <? 0) (Z.abs n mod hash_modulus).

Definition hash_float (hs : hash_secret) (x : float) : Z :=
  match Prim2SF x with
  | S754_nan => nan_hash hs
  | S754_infinity s => if s then -314159 else 314159
  | S754_zero _ => 0
  | S754_finite s m e =>
      signed_hash s ((Z.pos m mod hash_modulus) * 2 ^ (e mod 61) mod hash_modulus)
  end.

(** [hash(v)]; lists and dicts are unhashable. *)
Definition py_hash (hs : hash_secret) (v : value) : result Z :=
  match v with
  | VNone => Ret (none_hash hs)
  | VBool b => Ret (if b then 1 else 0)
  | VInt n => Ret (hash_int n)
  | VFloat x => Ret (hash_float hs x)
  | VStr s => Ret (hash_str hs s)
  | VList _ | VDict _ => Raise TypeError
  end.

(** [str(n)] for an int. *)
Definition str_of_int (n : Z) : string := pretty n.

End Py.

Notation "'let*' x ':=' m 'in' k" := (Py.bind m (fun x => k))
  (at level 10, x name, m at level 100, k at level 200).

(* ===================================================================== *)
(** * [models.py]: the canonical Business and its pydantic validation *)
(* ===================================================================== *)

Module Models.
Import Py.

Record Coordinates : Type := {
  latitude : float;
  longitude : float
}.

(** [class Business(BaseModel)]; [reviews] and [image] are populated through
    their aliases [review_count] and [image_url]. *)
Record Business : Type := {
  id : string;
  name : string;
  rating : option float;
  reviews : option Z;
  price : option string;
  distance : option string;
  image : option string;
  tags : list string;
  votes : Z;
  location : option (list (string * value));
  coordinates : option Coordinates;
  phone : option string;
  url : option string;
  categories : option (list (list (string * string)))
}.

(** pydantic (version 2, lax mode) coerces some scalars into numbers.  The
    coercions of strings and booleans are left open: nothing in the services
    depends on them. *)
Record lax_coercions : Type := {
  float_of_str : string -> option float;
  float_of_bool : bool -> option float;
  int_of_str : string -> option Z;
  int_of_bool : bool -> option Z
}.

Definition validate_str (v : value) : option string :=
  match v with
  | VStr s => Some s
  | _ => None
  end.

(** A float is accepted for an [int] field when it has no fractional part
    and lies strictly between -2^63 and 2^63. *)
Definition int_of_float (x : float) : option Z :=
  match Prim2SF x with
  | S754_zero _ => Some 0
  | S754_finite s m e =>
      let magnitude :=
        if 0 <=? e then Some (Z.pos m * 2 ^ e)
        else if Z.pos m mod 2 ^ (- e) =? 0 then Some (Z.pos m / 2 ^ (- e))
        else None in
      match magnitude with
      | Some n => if n <? 2 ^ 63 then Some (if s then - n else n) else None
      | None => None
      end
  | _ => None
  end.

Definition validate_float (lax : lax_coercions) (v : value) : option float :=
  match v with
  | VFloat x => Some x
  | VInt n => match float_of_int n with Ret x => Some x | Raise _ => None end
  | VBool b => float_of_bool lax b
  | VStr s => float_of_str lax s
  | _ => None
  end.

Definition validate_int (lax : lax_coercions) (v : value) : option Z :=
  match v with
  | VInt n => Some n
  | VFloat x => int_of_float x
  | VBool b => int_of_bool lax b
  | VStr s => int_of_str lax s
  | _ => None
  end.

(** [Optional[T]]: [None] passes, anything else goes to [T]'s validator. *)
Definition validate_optional {A : Type} (validate : value -> option A) (v : value)
  : option (option A) :=
  match v with
  | VNone => Some None
  | _ => option_map Some (validate v)
  end.

Fixpoint validate_each {A : Type} (validate : value -> option A) (items : list value)
  : option (list A) :=
  match items with
  | [] => Some []
  | x :: rest =>
      match validate x, validate_each validate rest with
      | Some a, Some others => Some (a :: others)
      | _, _ => None
      end
  end.

(** [List[T]]. *)
Definition validate_list {A : Type} (validate : value -> option A) (v : value)
  : option (list A) :=
  match v with
  | VList items => validate_each validate items
  | _ => None
  end.

Fixpoint validate_entries {A : Type} (validate : value -> option A)
  (entries : list (string * value)) : option (list (string * A)) :=
  match entries with
  | [] => Some []
  | (k, x) :: rest =>
      match validate x, validate_entries validate rest with
      | Some a, Some others => Some ((k, a) :: others)
      | _, _ => None
      end
  end.

(** [Dict[str, T]]. *)
Definition validate_dict {A : Type} (validate : value -> option A) (v : value)
  : option (list (string * A)) :=
  match v with
  | VDict entries => validate_entries validate entries
  | _ => None
  end.

(** [class Coordinates(BaseModel)], built from a dict: both fields required. *)
Definition validate_coordinates (lax : lax_coercions) (v : value) : option Coordinates :=
  match v with
  | VDict entries =>
      match lookup_key "latitude" entries, lookup_key "longitude" entries with
      | Some lat, Some lon =>
          match validate_float lax lat, validate_float lax lon with
          | Some x, Some y => Some {| latitude := x; longitude := y |}
          | _, _ => None
          end
      | _, _ => None
      end
  | _ => None
  end.

(** [Business(id=..., name=..., rating=..., review_count=..., ...)]: every
    field is validated; one failure raises [ValidationError]. *)
Definition Business_init (lax : lax_coercions)
  (id_ name_ rating_ review_count_ price_ distance_ image_url_ tags_ votes_
   location_ coordinates_ phone_ url_ categories_ : value) : result Business :=
  match
    validate_str id_, validate_str name_,
    validate_optional (validate_float lax) rating_,
    validate_optional (validate_int lax) review_count_,
    validate_optional validate_str price_,
    validate_optional validate_str distance_,
    validate_optional validate_str image_url_,
    validate_list validate_str tags_,
    validate_int lax votes_,
    validate_optional (validate_dict Some) location_,
    validate_optional (validate_coordinates lax) coordinates_,
    validate_optional validate_str phone_,
    validate_optional validate_str url_,
    validate_optional (validate_list (validate_dict validate_str)) categories_
  with
  | Some i, Some n, Some r, Some rc, Some p, Some d, Some img, Some t, Some vo,
    Some loc, Some co, Some ph, Some u, Some ca =>
      Ret {| id := i; name := n; rating := r; reviews := rc; price := p;
             distance := d; image := img; tags := t; votes := vo;
             location := loc; coordinates := co; phone := ph; url := u;
             categories := ca |}
  | _, _, _, _, _, _, _, _, _, _, _, _, _, _ => Raise ValidationError
  end.

End Models.

(* ===================================================================== *)
(** * [yelp_service.py]: [YelpAIService] *)
(* ===================================================================== *)

Module YelpService.
Import Py Models.

#[warnings="-inexact-float"]
Definition METERS_TO_MILES : float := 0.000621371%float.

Section Service.

(** The interpreter's hash secret and the installed pydantic's coercions. *)
Variable hs : hash_secret.
Variable lax : lax_coercions.

(** The list comprehension of line 162: the titles that are truthy. *)
Fixpoint category_titles (cats : list value) : result (list value) :=
  match cats with
  | [] => Ret []
  | cat :: rest =>
      let* probe := py_get cat "title" VNone in
      if truthy probe then
        let* title := py_get cat "title" (VStr EmptyString) in
        let* titles := category_titles rest in
        Ret (title :: titles)
      else category_titles rest
  end.

(** Lines 160-162: [tags]. *)
Definition tags_of (entity_data : value) : result (list value) :=
  let* has_categories := py_in "categories" entity_data in
  if has_categories then
    let* cats := py_getitem entity_data "categories" in
    if truthy cats then
      let* cats := py_getitem entity_data "categories" in
      let* items := py_iter cats in
      category_titles items
    else Ret []
  else Ret [].

(** The inner block shared by lines 176-180 and 185-189; [VNone] stands for
    [image_url] keeping its initial [None]. *)
Definition first_photo (photos : value) : result value :=
  match photos with
  | VList (photo :: _) =>
      if is_dict photo then py_get photo "original_url" VNone else Ret photo
  | _ => Ret VNone
  end.

(** Lines 165-189: the [if]/[elif]/[elif] chain that sets [image_url]. *)
Definition image_url_of (entity_data : value) : result value :=
  let* has_image_url := py_in "image_url" entity_data in
  if has_image_url then py_getitem entity_data "image_url"
  else
    let* has_contextual_info := py_in "contextual_info" entity_data in
    if has_contextual_info then
      let* contextual_info := py_getitem entity_data "contextual_info" in
      if is_dict contextual_info then
        let* has_photos := py_in "photos" contextual_info in
        if has_photos then
          let* photos := py_getitem contextual_info "photos" in
          first_photo photos
        else Ret VNone
      else Ret VNone
    else
      let* has_photos := py_in "photos" entity_data in
      if has_photos then
        let* probe := py_getitem entity_data "photos" in
        if truthy probe then
          let* photos := py_getitem entity_data "photos" in
          first_photo photos
        else Ret VNone
      else Ret VNone.

(** Lines 192-199: [coordinates]. *)
Definition coordinates_of (entity_data : value) : result value :=
  let* coords_data := py_get entity_data "coordinates" VNone in
  if truthy coords_data && is_dict coords_data then
    let* has_latitude := py_in "latitude" coords_data in
    let* has_both :=
      if has_latitude then py_in "longitude" coords_data else Ret false in
    if has_both then
      let* lat := py_getitem coords_data "latitude" in
      let* lon := py_getitem coords_data "longitude" in
      Ret (VDict [("latitude", lat); ("longitude", lon)])
    else Ret VNone
  else Ret VNone.

(** Lines 202-207: [distance]. *)
Definition distance_of (entity_data : value) : result value :=
  let* has_distance := py_in "distance" entity_data in
  if has_distance then
    let* dist_meters := py_getitem entity_data "distance" in
    if truthy dist_meters then
      let* miles := py_mul_float dist_meters METERS_TO_MILES in
      Ret (VStr (format_1f miles ++ " mi")%string)
    else Ret VNone
  else Ret VNone.

(** Line 210: the [id=] argument.  Python evaluates the defaults of both
    [get] calls before the calls, so the name is always hashed. *)
Definition id_of (entity_data : value) : result value :=
  let* name_ := py_get entity_data "name" VNone in
  let* h := py_hash hs name_ in
  let* alias := py_get entity_data "alias" (VStr (str_of_int h)) in
  py_get entity_data "id" alias.

(** The body of the [try] block of [_parse_business]. *)
Definition parse_business_body (entity_data : value) : result (list Business) :=
  let* has_name := py_in "name" entity_data in
  if negb has_name then Ret []
  else
    let* tags_ := tags_of entity_data in
    let* image_url_ := image_url_of entity_data in
    let* coordinates_ := coordinates_of entity_data in
    let* distance_ := distance_of entity_data in
    let* id_ := id_of entity_data in
    let* name_ := py_get entity_data "name" (VStr EmptyString) in
    let* rating_ := py_get entity_data "rating" VNone in
    let* review_count_ := py_get entity_data "review_count" (VInt 0) in
    let* price_ := py_get entity_data "price" VNone in
    let* location_ := py_get entity_data "location" VNone in
    let* phone_ := py_get entity_data "phone" VNone in
    let* url_ := py_get entity_data "url" VNone in
    let* categories_ := py_get entity_data "categories" VNone in
    let* business :=
      Business_init lax id_ name_ rating_ review_count_ price_ distance_
        image_url_ (VList tags_) (VInt 0) location_ coordinates_ phone_ url_
        categories_ in
    Ret [business].

(** [_parse_business]: whatever the body raises is logged and becomes []. *)
Definition _parse_business (entity_data : value) : result (list Business) :=
  try_except (parse_business_body entity_data) (fun _ => Ret []).

(** [isinstance(entity, dict) and k in entity]. *)
Definition dict_with (k : string) (entity : value) : bool :=
  match entity with
  | VDict entries => has_key k entries
  | _ => false
  end.

(** Lines 127-128: the loop over a nested [businesses] array; the list
    [businesses] is the accumulator that [extend] grows. *)
Fixpoint extend_each (businesses : list Business) (items : list value)
  : result (list Business) :=
  match items with
  | [] => Ret businesses
  | business_data :: rest =>
      let* parsed := _parse_business business_data in
      extend_each (businesses ++ parsed) rest
  end.

(** Lines 124-131: the loop over a list of entities. *)
Fixpoint list_entities (businesses : list Business) (entities : list value)
  : result (list Business) :=
  match entities with
  | [] => Ret businesses
  | entity :: rest =>
      if dict_with "businesses" entity then
        let* nested := py_get entity "businesses" (VList []) in
        let* items := py_iter nested in
        let* businesses := extend_each businesses items in
        list_entities businesses rest
      else if dict_with "name" entity then
        let* parsed := _parse_business entity in
        list_entities (businesses ++ parsed) rest
      else list_entities businesses rest
  end.

(** Lines 136-138: the loop over the items of a legacy mapping. *)
Fixpoint dict_entities (businesses : list Business) (items : list (string * value))
  : result (list Business) :=
  match items with
  | [] => Ret businesses
  | (entity_id, entity_data) :: rest =>
      if dict_with "name" entity_data then
        let* parsed := _parse_business entity_data in
        dict_entities (businesses ++ parsed) rest
      else dict_entities businesses rest
  end.

(** [_extract_businesses]. *)
Definition _extract_businesses (data : value) : result (list Business) :=
  let businesses := [] in
  let* entities := py_get data "entities" (VList []) in
  match entities with
  | VList items => list_entities businesses items
  | VDict items => dict_entities businesses items
  | _ => Ret businesses
  end.

End Service.

End YelpService.

(* ===================================================================== *)
(** * [main.py]: the Google Calendar OAuth endpoints *)
(* ===================================================================== *)

Module Main.
Import Py.

(** What [oauth_states] maps a state token to. *)
Record user_data : Type := { user_id : string }.

(** The process-wide state the two endpoints touch: the module-level dict
    [oauth_states], and the codes handed so far to
    [calendar_service.exchange_code_for_token], oldest first. *)
Record world : Type := {
  oauth_states : gmap string user_data;
  exchanged : list string
}.

Record start_response : Type := {
  auth_url : string;
  start_state : string
}.

Record callback_response : Type := {
  success : bool;
  callback_user_id : string;
  tokens : value
}.

Section Endpoints.

(** The calendar service's two calls, and [str(e)]. *)
Variable get_authorization_url : string -> result string.
Variable exchange_code_for_token : string -> result value.
Variable create_event : value -> value -> value -> result value.
Variable str_of_exn : exn -> string.

(** The status FastAPI answers with: that of a raised [HTTPException],
    500 for any other exception, 200 for a returned body. *)
Definition http_status {A : Type} (r : result A) : Z :=
  match r with
  | Ret _ => 200
  | Raise (HTTPException status _) => status
  | Raise _ => 500
  end.

(** [start_calendar_auth]; [state] is what [secrets.token_urlsafe(32)] drew. *)
Definition start_calendar_auth (state : string) (user : string) (w : world)
  : result start_response * world :=
  let w' := {| oauth_states := <[state := {| user_id := user |}]> (oauth_states w);
               exchanged := exchanged w |} in
  let body :=
    let* url := get_authorization_url state in
    Ret {| auth_url := url; start_state := state |} in
  (try_except body (fun e => Raise (HTTPException 500 (VStr (str_of_exn e)))), w').

(** The [try] block of [calendar_auth_callback], lines 357-374. *)
Definition callback_body (code state : string) (w : world)
  : result callback_response * world :=
  match oauth_states w !! state with
  | None => (Raise (HTTPException 400 (VStr "Invalid state parameter")), w)
  | Some data =>
      let w' := {| oauth_states := delete state (oauth_states w);
                   exchanged := exchanged w ++ [code] |} in
      (let* tokens_ := exchange_code_for_token code in
       Ret {| success := true; callback_user_id := user_id data; tokens := tokens_ |},
       w')
  end.

(** [calendar_auth_callback]: the single handler [except Exception as e]
    re-raises whatever the body raised as a 500. *)
Definition calendar_auth_callback (code state : string) (w : world)
  : result callback_response * world :=
  let '(outcome, w') := callback_body code state w in
  (try_except outcome (fun e => Raise (HTTPException 500 (VStr (str_of_exn e)))), w').

(** [try: body  except HTTPException: raise  except Exception as e: handler(e)],
    the handlers of [create_calendar_event]. *)
Definition try_except_http_first {A : Type} (body : result A)
  (handler : exn -> result A) : result A :=
  match body with
  | Ret a => Ret a
  | Raise (HTTPException status detail) => Raise (HTTPException status detail)
  | Raise e => handler e
  end.

(** [create_calendar_event], lines 392-419. *)
Definition create_calendar_event (request : value) : result value :=
  try_except_http_first
    (let* access_token := py_get request "access_token" VNone in
     let* refresh_token := py_get request "refresh_token" VNone in
     let* event_details := py_get request "event_details" VNone in
     if negb (truthy access_token) || negb (truthy event_details)
     then Raise (HTTPException 400 (VStr "Missing required fields"))
     else
       let* outcome := create_event access_token refresh_token event_details in
       let* succeeded := py_get outcome "success" VNone in
       if negb (truthy succeeded)
       then
         let* error := py_get outcome "error" VNone in
         Raise (HTTPException 500 error)
       else Ret outcome)
    (fun e => Raise (HTTPException 500 (VStr (str_of_exn e)))).

End Endpoints.

End Main.

(* ===================================================================== *)
(** * What the specification speaks of *)
(* ===================================================================== *)

Module Spec.
Import Py Models YelpService.

(** What normalizing one raw record contributes to the output: the Business,
    or nothing when the record is rejected. *)
Definition normalize (hs : hash_secret) (lax : lax_coercions) (raw : value)
  : list Business :=
  match parse_business_body hs lax raw with
  | Ret out => out
  | Raise _ => []
  end.

(** An optional string field of the canonical record, as the Python value it
    holds. *)
Definition optional_str_value (o : option string) : value :=
  match o with
  | Some s => VStr s
  | None => VNone
  end.

(** "If the first element is a mapping, take its [original_url]; if it is a
    bare string, use it directly." *)
Definition photo_url (photo : value) : value :=
  match photo with
  | VDict entries => dict_get entries "original_url" VNone
  | _ => photo
  end.

(** The list shape of section 4.2, in the specification's words: "if it
    contains a businesses field, recurse into that nested sequence and
    normalize each; else if it itself contains a name field, normalize it
    directly as one business". *)
Definition entity_businesses (norm : value -> list Business) (entity : value)
  : list Business :=
  match entity with
  | VDict entries =>
      match lookup_key "businesses" entries with
      | Some (VList nested) => flat_map norm nested
      | Some _ => []
      | None => if has_key "name" entries then norm entity else []
      end
  | _ => []
  end.

(** "Output preserves encounter order; nested businesses from one entity are
    flattened in place before moving to the next entity." *)
Definition flatten_in_encounter_order (norm : value -> list Business)
  (entities : list value) : list Business :=
  flat_map (entity_businesses norm) entities.

(** The two kinds of entity a list-shaped response mixes: a direct business
    is a mapping with a [name] that is not itself a wrapper. *)
Definition direct_business (entity : value) : Prop :=
  exists entries,
    entity = VDict entries /\ has_key "name" entries = true /\
    lookup_key "businesses" entries = None.

Definition wrapper (entity : value) : Prop :=
  exists entries nested,
    entity = VDict entries /\ lookup_key "businesses" entries = Some (VList nested).

(** An entity whose [businesses] field, if it has one, is a list. *)
Definition sequence_or_none (entity : value) : Prop :=
  forall entries x,
    entity = VDict entries -> lookup_key "businesses" entries = Some x ->
    is_list x = true.

(** The meter value of a raw [distance] as a float: a float is itself, an
    int is the float nearest to it (ties to even) when there is one, true is
    1.0; nothing else is a number of meters. *)
Definition meters_as_float (meters : value) (x : float) : Prop :=
  match meters with
  | VFloat y => x = y
  | VInt n =>
      x = SF2Prim (binary_normalize prec emax n 0 false) /\
      forall s, binary_normalize prec emax n 0 false <> S754_infinity s
  | VBool flag => x = if flag then 1%float else 0%float
  | _ => False
  end.

(** [t] is the whole number of tenths nearest to [m * 2^e]; of two equally
    near, the even one. *)
Definition nearest_tenths (m : positive) (e t : Z) : Prop :=
  if 0 <=? e then t = 10 * Z.pos m * 2 ^ e
  else
    2 * Z.abs (t * 2 ^ (- e) - 10 * Z.pos m) <= 2 ^ (- e) /\
    (2 * Z.abs (t * 2 ^ (- e) - 10 * Z.pos m) = 2 ^ (- e) -> Z.even t = true).

Definition minus_sign (negative : bool) : string :=
  if negative then "-" else EmptyString.

(** "Format to exactly one decimal place": a sign, the whole part in decimal,
    a point and one digit, together the tenth nearest to the value.  Only a
    finite value has such a text. *)
Definition one_decimal_place (x : float) (text : string) : Prop :=
  match Prim2SF x with
  | S754_finite s m e =>
      exists whole digit,
        0 <= whole /\ 0 <= digit < 10 /\
        nearest_tenths m e (10 * whole + digit) /\
        text = (minus_sign s ++ pretty whole ++ "." ++ pretty digit)%string
  | S754_zero s => text = (minus_sign s ++ "0.0")%string
  | S754_infinity _ | S754_nan => False
  end.

(** What ['.1f'] prints: one decimal place for a finite value, a word for the
    others. *)
Definition printed_1f (x : float) (text : string) : Prop :=
  match Prim2SF x with
  | S754_infinity s => text = (minus_sign s ++ "inf")%string
  | S754_nan => text = "nan"%string
  | _ => one_decimal_place x text
  end.

(** Responses holding a batch of raw records in each of the three places the
    extractor looks. *)
Definition nested_response (batch : list value) : value :=
  VDict [("entities", VList [VDict [("businesses", VList batch)]])].

Definition list_response (batch : list value) : value :=
  VDict [("entities", VList batch)].

Definition mapping_response (batch : list (string * value)) : value :=
  VDict [("entities", VDict batch)].

End Spec.

(* ===================================================================== *)
(** * Concrete runs *)
(* ===================================================================== *)

Module Samples.
Import Py Models YelpService Main.

(** An interpreter started with [PYTHONHASHSEED=0]: the SipHash key is zero. *)
Definition seed0 : hash_secret :=
  {| siphash_k0 := 0; siphash_k1 := 0; none_hash := 0; nan_hash := 0 |}.

(** An interpreter started with [PYTHONHASHSEED=1]: the key that CPython's
    linear congruential generator derives from the seed. *)
Definition seed1 : hash_secret :=
  {| siphash_k0 := 12598376723466036009; siphash_k1 := 16999324916296290386;
     none_hash := 0; nan_hash := 0 |}.

(** A pydantic that coerces neither strings nor booleans into numbers. *)
Definition no_coercions : lax_coercions :=
  {| float_of_str := fun _ => None; float_of_bool := fun _ => None;
     int_of_str := fun _ => None; int_of_bool := fun _ => None |}.

Definition parse0 : value -> result (list Business) :=
  _parse_business seed0 no_coercions.

(** [{"name": "A", "id": "1", "contextual_info": {}, "photos": ["http://x"]}] *)
Definition contextual_without_photos : list (string * value) :=
  [("name", VStr "A"); ("id", VStr "1"); ("contextual_info", VDict []);
   ("photos", VList [VStr "http://x"])].

(** [{"name": "A", "id": "1", "photos": [{"original_url": "http://a"}]}] *)
Definition direct_photos : list (string * value) :=
  [("name", VStr "A"); ("id", VStr "1");
   ("photos", VList [VDict [("original_url", VStr "http://a")]])].

(** [{"name": "A", "id": "1", "image_url": null, "photos": ["http://x"]}] *)
Definition null_image_url : list (string * value) :=
  [("name", VStr "A"); ("id", VStr "1"); ("image_url", VNone);
   ("photos", VList [VStr "http://x"])].

(** [{"name": "A"}]: no id, no alias. *)
Definition only_name : list (string * value) := [("name", VStr "A")].

(** [{"name": "A", "rating": 4.5}]: the same name, again no id and no alias. *)
Definition name_and_rating : list (string * value) :=
  [("name", VStr "A"); ("rating", VFloat 4.5%float)].

#[warnings="-inexact-float"]
Definition one_mile_meters : float := 1609.34%float.

(** [{"name": "A", "id": "1", "distance": 1609.34}] *)
Definition one_mile : list (string * value) :=
  [("name", VStr "A"); ("id", VStr "1"); ("distance", VFloat one_mile_meters)].

(** [{"name": "A", "id": "1", "distance": 1e999}]: the decoder reads the
    number as infinity. *)
Definition infinite_distance : list (string * value) :=
  [("name", VStr "A"); ("id", VStr "1"); ("distance", VFloat infinity)].

(** [{"name": "A", "id": "1", "distance": 0}] *)
Definition zero_distance : list (string * value) :=
  [("name", VStr "A"); ("id", VStr "1"); ("distance", VInt 0)].

(** [{"name": "A", "id": null, "alias": "a-1"}] *)
Definition null_id : list (string * value) :=
  [("name", VStr "A"); ("id", VNone); ("alias", VStr "a-1")].

(** [{"id": "1"}]: a record without a name. *)
Definition nameless : list (string * value) := [("id", VStr "1")].

Definition named (n i : string) : value :=
  VDict [("name", VStr n); ("id", VStr i)].

(** No authorization flow has been started. *)
Definition fresh_world : world := {| oauth_states := ∅; exchanged := [] |}.

End Samples.

(* ===================================================================== *)
(** * [yelp_service.py]: [chat] and [search_businesses] *)
(* ===================================================================== *)

Module YelpChat.
Import Py Models YelpService.

(** [d[k] = v]: the value of an existing key is replaced where it stands, a
    new key goes to the end. *)
Fixpoint dict_set (entries : list (string * value)) (k : string) (v : value)
  : list (string * value) :=
  match entries with
  | [] => [(k, v)]
  | (k', x) :: rest =>
      if String.eqb k k' then (k', v) :: rest else (k', x) :: dict_set rest k v
  end.

(** [class ChatResponse(BaseModel)]. *)
Record ChatResponse : Type := {
  response_text : string;
  chat_id : option string;
  businesses : list Business;
  types : option (list string);
  raw_response : option (list (string * value))
}.

(** [ChatResponse(response_text=..., chat_id=..., businesses=..., types=...,
    raw_response=...)]; the businesses are Business instances already. *)
Definition ChatResponse_init (response_text_ chat_id_ : value)
  (businesses_ : list Business) (types_ raw_response_ : value)
  : result ChatResponse :=
  match
    validate_str response_text_,
    validate_optional validate_str chat_id_,
    validate_optional (validate_list validate_str) types_,
    validate_optional (validate_dict Some) raw_response_
  with
  | Some text, Some cid, Some ty, Some raw =>
      Ret {| response_text := text; chat_id := cid; businesses := businesses_;
             types := ty; raw_response := raw |}
  | _, _, _, _ => Raise ValidationError
  end.

(** Lines 44-62 of [chat]: the request payload. *)
Definition build_payload (query : string) (latitude longitude : option float)
  (locale : string) (chat_id_ : option string) : list (string * value) :=
  let payload := [("query", VStr query)] in
  let payload :=
    match latitude, longitude with
    | Some lat, Some lon =>
        dict_set payload "user_context"
          (VDict [("locale", VStr locale); ("latitude", VFloat lat);
                  ("longitude", VFloat lon)])
    | _, _ =>
        if truthy (VStr locale)
        then dict_set payload "user_context" (VDict [("locale", VStr locale)])
        else payload
    end in
  match chat_id_ with
  | Some c => if truthy (VStr c) then dict_set payload "chat_id" (VStr c) else payload
  | None => payload
  end.

(** What [client.post], [raise_for_status] and [response.json] come to:
    an [httpx.HTTPStatusError] with the upstream status, an
    [httpx.RequestError] with its text, some other exception, or the decoded
    body. *)
Inductive post_outcome : Type :=
| HTTPStatusError (status_code : Z)
| RequestError (text : string)
| OtherError (e : exn)
| Body (data : value).

Section Chat.

Variable hs : hash_secret.
Variable lax : lax_coercions.

(** The Yelp endpoint, as a function of the payload it is sent. *)
Variable post : list (string * value) -> post_outcome.

(** Lines 79-97 of [chat]: from the decoded body to the ChatResponse. *)
Definition chat_response (data : value) : result ChatResponse :=
  let* response := py_get data "response" (VDict []) in
  let* response_text_ := py_get response "text" (VStr EmptyString) in
  let* chat_id_ := py_get data "chat_id" VNone in
  let* businesses_ := _extract_businesses hs lax data in
  let* types_ := py_get data "types" (VList []) in
  ChatResponse_init response_text_ chat_id_ businesses_ types_ data.

(** [chat]: the two httpx errors are re-raised as a plain [Exception] with a
    message ([ProviderError] here), anything else is re-raised as it is. *)
Definition chat (query : string) (latitude longitude : option float)
  (locale : string) (chat_id_ : option string) : result ChatResponse :=
  match post (build_payload query latitude longitude locale chat_id_) with
  | HTTPStatusError status =>
      Raise (ProviderError ("Yelp API error: " ++ pretty status)%string)
  | RequestError text =>
      Raise (ProviderError ("Failed to connect to Yelp API: " ++ text)%string)
  | OtherError e => Raise e
  | Body data => chat_response data
  end.

(** [search_businesses]. *)
Definition search_businesses (query : string) (latitude longitude : option float)
  (locale : string) : result (list Business) :=
  let* response := chat query latitude longitude locale None in
  Ret (businesses response).

End Chat.

End YelpChat.

(* ===================================================================== *)
(** * [main.py]: the Yelp endpoints *)
(* ===================================================================== *)

Module YelpEndpoints.
Import Py Models YelpChat Main.

(** [class UserContext(BaseModel)]. *)
Record UserContext : Type := {
  locale : string;
  latitude : option float;
  longitude : option float
}.

(** [class ChatRequest(BaseModel)]. *)
Record ChatRequest : Type := {
  query : string;
  user_context : option UserContext;
  chat_id : option string
}.

(** [class SearchRequest(BaseModel)]; the fields are [query], [latitude],
    [longitude] and [locale]. *)
Record SearchRequest : Type := {
  search_query : string;
  search_latitude : option float;
  search_longitude : option float;
  search_locale : string
}.

Section Endpoints.

Variable hs : hash_secret.
Variable lax : lax_coercions.
Variable post : list (string * value) -> post_outcome.
Variable str_of_exn : exn -> string.

(** [yelp_chat], lines 84-103; a model instance is always truthy. *)
Definition yelp_chat (request : ChatRequest) : result ChatResponse :=
  try_except
    (let latitude_ :=
       match user_context request with Some uc => latitude uc | None => None end in
     let longitude_ :=
       match user_context request with Some uc => longitude uc | None => None end in
     let locale_ :=
       match user_context request with Some uc => locale uc | None => "en_US" end in
     YelpChat.chat hs lax post (query request) latitude_ longitude_ locale_
       (chat_id request))
    (fun e => Raise (HTTPException 500 (VStr (str_of_exn e)))).

(** [search_businesses], lines 120-133. *)
Definition search_businesses (request : SearchRequest) : result (list Business) :=
  try_except
    (YelpChat.search_businesses hs lax post (search_query request)
       (search_latitude request) (search_longitude request) (search_locale request))
    (fun e => Raise (HTTPException 500 (VStr (str_of_exn e)))).

End Endpoints.

End YelpEndpoints.

(* ===================================================================== *)
(** * [calendar_service.py]: [create_calendar_event] *)
(* ===================================================================== *)

Module CalendarService.
Import Py YelpChat.

(** What a call into the Google client libraries comes to: a value, a
    [googleapiclient.errors.HttpError] (with its text), or another
    exception. *)
Inductive outcome (A : Type) : Type :=
| Done (a : A)
| HttpError (text : string)
| Failed (e : exn).
Arguments Done {A} a.
Arguments HttpError {A} text.
Arguments Failed {A} e.

Definition reminders : value :=
  VDict [("useDefault", VBool false);
         ("overrides",
          VList [VDict [("method", VStr "popup"); ("minutes", VInt 60)];
                 VDict [("method", VStr "popup"); ("minutes", VInt 15)]])].

(** Lines 135-160: the event body. *)
Definition build_event (event_details : value) : result (list (string * value)) :=
  let* title := py_getitem event_details "title" in
  let* location_ := py_get event_details "location" (VStr EmptyString) in
  let* description := py_get event_details "description" (VStr EmptyString) in
  let* start_time := py_getitem event_details "start_time" in
  let* start_zone := py_get event_details "timezone" (VStr "America/New_York") in
  let* end_time := py_getitem event_details "end_time" in
  let* end_zone := py_get event_details "timezone" (VStr "America/New_York") in
  let event :=
    [("summary", title); ("location", location_); ("description", description);
     ("start", VDict [("dateTime", start_time); ("timeZone", start_zone)]);
     ("end", VDict [("dateTime", end_time); ("timeZone", end_zone)]);
     ("reminders", reminders)] in
  let* has_attendees := py_in "attendees" event_details in
  let* wanted :=
    if has_attendees
    then let* probe := py_getitem event_details "attendees" in Ret (truthy probe)
    else Ret false in
  if wanted then
    let* attendees := py_getitem event_details "attendees" in
    let* emails := py_iter attendees in
    Ret (dict_set event "attendees"
           (VList (map (fun email => VDict [("email", email)]) emails)))
  else Ret event.

(** Lines 169-176: the answer for a created event. *)
Definition created_answer (created_event : value) : result value :=
  let* logged_id := py_getitem created_event "id" in
  let* event_id := py_getitem created_event "id" in
  let* event_link := py_get created_event "htmlLink" VNone in
  Ret (VDict [("success", VBool true); ("event_id", event_id);
              ("event_link", event_link);
              ("message", VStr "Event added to calendar successfully")]).

Section Service.

(** Lines 118-132 (credentials, refresh, [build]) and lines 163-167
    ([events().insert(calendarId='primary', body=..., sendUpdates=...)
    .execute()]), and [str(e)]. *)
Variable open_service : value -> value -> outcome unit.
Variable insert_event : value -> string -> outcome value.
Variable str_of_exn : exn -> string.

Definition failure (text : string) : value :=
  VDict [("success", VBool false); ("error", VStr text)].

(** The two handlers, lines 178-189. *)
Definition http_failure (text : string) : value :=
  failure ("Failed to create calendar event: " ++ text)%string.

Definition unexpected (e : exn) : value :=
  failure ("Unexpected error: " ++ str_of_exn e)%string.

(** [create_calendar_event]: the answer, and the inserts that were sent
    (body and [sendUpdates]). *)
Definition create_calendar_event (access_token refresh_token event_details : value)
  : value * list (value * string) :=
  match open_service access_token refresh_token with
  | HttpError text => (http_failure text, [])
  | Failed e => (unexpected e, [])
  | Done _ =>
      match build_event event_details with
      | Raise e => (unexpected e, [])
      | Ret event =>
          let send_updates := if has_key "attendees" event then "all" else "none" in
          let sent := [(VDict event, send_updates)] in
          match insert_event (VDict event) send_updates with
          | HttpError text => (http_failure text, sent)
          | Failed e => (unexpected e, sent)
          | Done created_event =>
              match created_answer created_event with
              | Ret answer => (answer, sent)
              | Raise e => (unexpected e, sent)
              end
          end
      end
  end.

(** [main.create_calendar_event] over this service. *)
Definition create_event_endpoint (request : value) : result value :=
  Main.create_calendar_event
    (fun access_token refresh_token event_details =>
       Ret (fst (create_calendar_event access_token refresh_token event_details)))
    str_of_exn request.

End Service.

End CalendarService.

(* ===================================================================== *)
(** * [config.py]: [Settings.parse_cors_origins] *)
(* ===================================================================== *)

Module Config.
Import Py.

(** [str.isspace] on a code point below 256. *)
Definition is_space (c : ascii) : bool :=
  let n := Z.of_N (N_of_ascii c) in
  ((9 <=? n) && (n <=? 13)) || ((28 <=? n) && (n <=? 32)) || (n =? 133) || (n =? 160).

Definition is_comma (c : ascii) : bool := Ascii.eqb c ","%char.

(** [s.split(',')]: every comma separates, empty pieces are kept. *)
Fixpoint split_commas (s : string) : list string :=
  match s with
  | EmptyString => [EmptyString]
  | String c rest =>
      if is_comma c then EmptyString :: split_commas rest
      else
        match split_commas rest with
        | piece :: others => String c piece :: others
        | [] => [String c EmptyString]
        end
  end.

Fixpoint lstrip (s : string) : string :=
  match s with
  | EmptyString => EmptyString
  | String c rest => if is_space c then lstrip rest else s
  end.

Fixpoint rstrip (s : string) : string :=
  match s with
  | EmptyString => EmptyString
  | String c rest =>
      match rstrip rest with
      | EmptyString => if is_space c then EmptyString else String c EmptyString
      | kept => String c kept
      end
  end.

(** [s.strip()]. *)
Definition strip (s : string) : string := rstrip (lstrip s).

(** [parse_cors_origins], the [mode='before'] validator of [cors_origins]. *)
Definition parse_cors_origins (v : value) : value :=
  match v with
  | VStr s => VList (map (fun origin => VStr (strip origin)) (split_commas s))
  | _ => v
  end.





(** [",".join(pieces)]. *)
Fixpoint join_commas (pieces : list string) : string :=
  match pieces with
  | [] => EmptyString
  | [piece] => piece
  | piece :: others => (piece ++ "," ++ join_commas others)%string
  end.

End Config.

(* ===================================================================== *)
(** * Readings of the output *)
(* ===================================================================== *)

Module Reading.
Import Py Models YelpService Spec.

(** The non-empty string titles of a list of categories, in order. *)
Definition titles (cats : list value) : list string :=
  flat_map
    (fun cat =>
       match cat with
       | VDict entries =>
           match lookup_key "title" entries with
           | Some (VStr t) => if String.eqb t EmptyString then [] else [t]
           | _ => []
           end
       | _ => []
       end) cats.

(** What a legacy mapping of entities contributes, item by item. *)
Definition mapping_businesses (norm : value -> list Business)
  (items : list (string * value)) : list Business :=
  flat_map (fun item => if dict_with "name" (snd item) then norm (snd item) else [])
    items.

(** [None], booleans and numbers: what a [for] loop cannot iterate. *)
Definition not_iterable (v : value) : bool :=
  match v with
  | VNone | VBool _ | VInt _ | VFloat _ => true
  | _ => false
  end.

(** The Yelp endpoint answering a fixed body, and one refusing with a status. *)
Definition answering (data : value) : list (string * value) -> YelpChat.post_outcome :=
  fun _ => YelpChat.Body data.

Definition refusing (status : Z) : list (string * value) -> YelpChat.post_outcome :=
  fun _ => YelpChat.HTTPStatusError status.

Definition unreachable (text : string) : list (string * value) -> YelpChat.post_outcome :=
  fun _ => YelpChat.RequestError text.

(** A Google client that accepts everything and creates event ["e1"]. *)
Definition accepting_service : value -> value -> CalendarService.outcome unit :=
  fun _ _ => CalendarService.Done tt.

Definition accepting_insert : value -> string -> CalendarService.outcome value :=
  fun _ _ => CalendarService.Done (VDict [("id", VStr "e1")]).

Definition class_name (e : exn) : string :=
  match e with
  | TypeError => "TypeError"
  | AttributeError => "AttributeError"
  | KeyError => "KeyError"
  | OverflowError => "OverflowError"
  | ValidationError => "ValidationError"
  | HTTPException _ _ => "HTTPException"
  | ProviderError message => message
  end.

End Reading.

(* ===================================================================== *)
(** * More concrete runs *)
(* ===================================================================== *)

Module Cases.
Import Py Models YelpService Main.

(** [{"name": "A", "id": "1", "categories": [{"title": "Pizza", "alias":
    "pizza"}, {"alias": "x"}, {"title": "", "alias": "y"}, {"title": "Bar",
    "alias": "bars"}]}] *)
Definition with_categories : list (string * value) :=
  [("name", VStr "A"); ("id", VStr "1");
   ("categories",
    VList [VDict [("title", VStr "Pizza"); ("alias", VStr "pizza")];
           VDict [("alias", VStr "x")];
           VDict [("title", VStr EmptyString); ("alias", VStr "y")];
           VDict [("title", VStr "Bar"); ("alias", VStr "bars")]])].

(** [{"name": "A", "id": "1", "coordinates": {"latitude": 40.5, "longitude":
    -74.25}}] *)
Definition with_coordinates : list (string * value) :=
  [("name", VStr "A"); ("id", VStr "1");
   ("coordinates",
    VDict [("latitude", VFloat 40.5%float); ("longitude", VFloat (-74.25)%float)])].

(** [{"name": "A", "id": "1", "coordinates": {"latitude": 40.5}}] *)
Definition latitude_only : list (string * value) :=
  [("name", VStr "A"); ("id", VStr "1");
   ("coordinates", VDict [("latitude", VFloat 40.5%float)])].

(** [{"name": "A", "id": "1", "votes": 12, "review_count": 7, "price": "$$",
    "phone": "+1", "location": {"city": "X"}}] *)
Definition with_passthrough : list (string * value) :=
  [("name", VStr "A"); ("id", VStr "1"); ("votes", VInt 12);
   ("review_count", VInt 7); ("price", VStr "$$"); ("phone", VStr "+1");
   ("location", VDict [("city", VStr "X")])].

(** [{"name": "A", "id": "1", "contextual_info": {"photos": [{"original_url":
    "http://a"}]}}] *)
Definition contextual_photos : list (string * value) :=
  [("name", VStr "A"); ("id", VStr "1");
   ("contextual_info",
    VDict [("photos", VList [VDict [("original_url", VStr "http://a")]])])].

(** [{"name": "A", "id": 17}] *)
Definition numeric_id : list (string * value) :=
  [("name", VStr "A"); ("id", VInt 17)].

(** [{"name": "A", "id": "1", "distance": "far"}] *)
Definition textual_distance : list (string * value) :=
  [("name", VStr "A"); ("id", VStr "1"); ("distance", VStr "far")].

(** [{"title": "Dinner", "start_time": "2025-01-01T19:00:00", "end_time":
    "2025-01-01T21:00:00", "attendees": ["a@x.org", "b@x.org"]}] *)
Definition dinner : list (string * value) :=
  [("title", VStr "Dinner"); ("start_time", VStr "2025-01-01T19:00:00");
   ("end_time", VStr "2025-01-01T21:00:00");
   ("attendees", VList [VStr "a@x.org"; VStr "b@x.org"])].

(** [{"response": {"text": "hi"}, "chat_id": "c1", "entities": [{"name": "A",
    "id": "1"}]}] *)
Definition chat_body : list (string * value) :=
  [("response", VDict [("text", VStr "hi")]); ("chat_id", VStr "c1");
   ("entities", VList [VDict [("name", VStr "A"); ("id", VStr "1")]])].

End Cases.

(* ===================================================================== *)
(** * Properties *)
(* ===================================================================== *)

Import Py Models YelpService Spec.

(** ** Working with [result] *)

Lemma bind_Ret_inv {A B : Type} (m : result A) (k : A -> result B) (b : B) :
  bind m k = Ret b -> exists a, m = Ret a /\ k a = Ret b.
Proof.
  destruct m as [a | e]; simpl; intros H; [ | discriminate ].
  exists a. split; [ reflexivity | exact H ].
Qed.

Lemma try_except_Ret_cons {A : Type} (body : result (list A)) (x : A) (l : list A) :
  try_except body (fun _ => Ret []) = Ret (x :: l) -> body = Ret (x :: l).
Proof. destruct body; simpl; intros H; [ exact H | discriminate ]. Qed.

(** Splits a hypothesis [bind m k = Ret b] into its two steps. *)
Ltac bind_inv H :=
  let a := fresh "a" in
  let Hm := fresh "Hstep" in
  apply bind_Ret_inv in H; destruct H as (a & Hm & H).

Lemma lookup_has_key k (d : list (string * value)) v :
  lookup_key k d = Some v -> has_key k d = true.
Proof. unfold has_key. intros ->. reflexivity. Qed.

Lemma lookup_no_key k (d : list (string * value)) :
  lookup_key k d = None -> has_key k d = false.
Proof. unfold has_key. intros ->. reflexivity. Qed.

Lemma has_key_lookup k (d : list (string * value)) :
  has_key k d = true -> exists v, lookup_key k d = Some v.
Proof.
  unfold has_key. destruct (lookup_key k d) as [v | ]; [ eauto | discriminate ].
Qed.

(** ** The hash loop visits every full block *)

Lemma sip_blocks_tail (fuel : nat) :
  forall (st : sip_state) (bytes : list Z),
    (length bytes <= fuel)%nat ->
    (length (snd (sip_blocks fuel st bytes)) < 8)%nat.
Proof.
  induction fuel as [ | fuel IH]; intros st bytes Hfuel; simpl.
  - lia.
  - destruct (8 <=? Z.of_nat (length bytes)) eqn:Hlen; simpl.
    + apply IH. rewrite length_skipn. apply Z.leb_le in Hlen. lia.
    + apply Z.leb_gt in Hlen. lia.
Qed.

(** ** [_parse_business] always returns *)

Lemma parse_business_is_normalize hs lax (v : value) :
  _parse_business hs lax v = Ret (normalize hs lax v).
Proof.
  unfold _parse_business, normalize.
  destruct (parse_business_body hs lax v); reflexivity.
Qed.

Lemma body_at_most_one hs lax (v : value) (out : list Business) :
  parse_business_body hs lax v = Ret out -> (length out <= 1)%nat.
Proof.
  unfold parse_business_body. intros H.
  bind_inv H. destruct (negb a).
  - injection H as <-. simpl. lia.
  - do 14 bind_inv H. injection H as <-. simpl. lia.
Qed.

Lemma normalize_at_most_one hs lax (v : value) :
  (length (normalize hs lax v) <= 1)%nat.
Proof.
  unfold normalize.
  destruct (parse_business_body hs lax v) as [out | e] eqn:E.
  - eapply body_at_most_one. exact E.
  - simpl. lia.
Qed.

(** A value that is not a dict has no [get]: the body raises at line 193 at
    the latest. *)
Lemma body_of_non_dict hs lax (v : value) (b : Business) (l : list Business) :
  is_dict v = false -> parse_business_body hs lax v <> Ret (b :: l).
Proof.
  intros Hv H. unfold parse_business_body in H.
  bind_inv H. destruct (negb a); [ discriminate | ].
  do 2 bind_inv H. bind_inv H.
  unfold coordinates_of in Hstep2.
  destruct v; try discriminate; simpl in Hstep2; discriminate.
Qed.

Lemma normalize_non_dict hs lax (v : value) :
  is_dict v = false -> normalize hs lax v = [].
Proof.
  intros Hv. unfold normalize.
  destruct (parse_business_body hs lax v) as [[ | b l] | e] eqn:E; try reflexivity.
  exfalso. eapply body_of_non_dict; eassumption.
Qed.

Lemma extend_each_flat_map hs lax (items : list value) :
  forall businesses,
    extend_each hs lax businesses items
    = Ret (businesses ++ flat_map (normalize hs lax) items).
Proof.
  induction items as [ | x items IH]; intros businesses; simpl.
  - rewrite app_nil_r. reflexivity.
  - rewrite parse_business_is_normalize. simpl. rewrite IH.
    rewrite <- app_assoc. reflexivity.
Qed.

(** C10: [_parse_business] returns for every JSON value, with at most one
    Business; a value that is not a mapping yields none; and the loop over a
    nested [businesses] array therefore never raises, whatever its elements
    are. *)
Theorem parse_business_never_raises hs lax :
  (forall v : value,
      exists out, _parse_business hs lax v = Ret out /\
                  (length out <= 1)%nat /\
                  (is_dict v = false -> out = [])) /\
  (forall (businesses : list Business) (items : list value),
      exists out, extend_each hs lax businesses items = Ret (businesses ++ out) /\
                  (length out <= length items)%nat) /\
  (forall items : list value,
      _extract_businesses hs lax (nested_response items)
      = Ret (flat_map (normalize hs lax) items)).
Proof.
  split; [ | split ].
  - intros v. exists (normalize hs lax v). split; [ | split ].
    + apply parse_business_is_normalize.
    + apply normalize_at_most_one.
    + apply normalize_non_dict.
  - intros businesses items. exists (flat_map (normalize hs lax) items). split.
    + apply extend_each_flat_map.
    + induction items as [ | x items IH]; simpl; [ lia | ].
      rewrite length_app. pose proof (normalize_at_most_one hs lax x). lia.
  - intros items. unfold _extract_businesses, nested_response. simpl.
    rewrite extend_each_flat_map. reflexivity.
Qed.

(** ** Shapes of [entities] that are neither a list nor a mapping *)

(** C5: when [entities] is missing, or is a value that is neither a list nor
    a mapping (null, a number, a string, a boolean), [_extract_businesses]
    returns the empty list. *)
Theorem extract_unrecognised_entities hs lax (data : list (string * value)) :
  (lookup_key "entities" data = None \/
   exists v, lookup_key "entities" data = Some v /\
             is_list v = false /\ is_dict v = false) ->
  _extract_businesses hs lax (VDict data) = Ret [].
Proof.
  intros [Hmissing | (v & Hv & Hlist & Hdict)];
    unfold _extract_businesses; simpl; unfold dict_get.
  - rewrite Hmissing. reflexivity.
  - rewrite Hv. destruct v; try discriminate; reflexivity.
Qed.

Lemma extract_unrecognised_entities_witness :
  _extract_businesses Samples.seed0 Samples.no_coercions
    (VDict [("chat_id", VStr "c"); ("entities", VInt 7)]) = Ret [].
Proof.
  apply extract_unrecognised_entities.
  right. exists (VInt 7). repeat split; reflexivity.
Defined.

(** ** The loops of [_extract_businesses] *)

Lemma list_entities_app hs lax (l1 l2 : list value) :
  forall businesses,
    list_entities hs lax businesses (l1 ++ l2)
    = let* collected := list_entities hs lax businesses l1 in
      list_entities hs lax collected l2.
Proof.
  induction l1 as [ | e l1 IH]; intros businesses; simpl; [ reflexivity | ].
  destruct (dict_with "businesses" e).
  - destruct (py_get e "businesses" (VList [])) as [nested | ]; simpl; [ | reflexivity ].
    destruct (py_iter nested) as [items | ]; simpl; [ | reflexivity ].
    destruct (extend_each hs lax businesses items); simpl; [ apply IH | reflexivity ].
  - destruct (dict_with "name" e); [ | apply IH ].
    destruct (_parse_business hs lax e); simpl; [ apply IH | reflexivity ].
Qed.

Lemma dict_entities_app hs lax (m1 m2 : list (string * value)) :
  forall businesses,
    dict_entities hs lax businesses (m1 ++ m2)
    = let* collected := dict_entities hs lax businesses m1 in
      dict_entities hs lax collected m2.
Proof.
  induction m1 as [ | [k e] m1 IH]; intros businesses; simpl; [ reflexivity | ].
  destruct (dict_with "name" e); [ | apply IH ].
  destruct (_parse_business hs lax e); simpl; [ apply IH | reflexivity ].
Qed.

Lemma list_entities_flatten hs lax (entities : list value) :
  Forall sequence_or_none entities ->
  forall businesses,
    list_entities hs lax businesses entities
    = Ret (businesses ++ flatten_in_encounter_order (normalize hs lax) entities).
Proof.
  unfold flatten_in_encounter_order.
  induction 1 as [ | e entities He _ IH]; intros businesses; simpl.
  - rewrite app_nil_r. reflexivity.
  - destruct e as [ | | | | | | entries]; simpl; try apply IH.
    unfold has_key.
    destruct (lookup_key "businesses" entries) as [x | ] eqn:Hb.
    + unfold dict_get. rewrite Hb.
      specialize (He entries x eq_refl Hb).
      destruct x; try discriminate. simpl.
      rewrite extend_each_flat_map. simpl. rewrite IH.
      rewrite <- app_assoc. reflexivity.
    + destruct (lookup_key "name" entries) eqn:Hn.
      * rewrite parse_business_is_normalize. simpl. rewrite IH.
        rewrite <- app_assoc. reflexivity.
      * apply IH.
Qed.

Lemma direct_or_wrapper_sequence (entity : value) :
  direct_business entity \/ wrapper entity -> sequence_or_none entity.
Proof.
  intros [(entries & -> & Hname & Hnone) | (entries & nested & -> & Hb)]
         entries' x [= <-] Hx.
  - congruence.
  - rewrite Hb in Hx. injection Hx as <-. reflexivity.
Qed.

(** C8: on a list-shaped [entities] made of direct businesses and of wrappers
    holding a nested [businesses] sequence, [_extract_businesses] returns the
    businesses flattened in encounter order: each entity contributes, in
    place and in their own order, the businesses of its nested sequence (or
    itself), before the next entity contributes. *)
Theorem list_shape_flattened hs lax (data : list (string * value))
  (entities : list value) :
  lookup_key "entities" data = Some (VList entities) ->
  Forall (fun entity => direct_business entity \/ wrapper entity) entities ->
  _extract_businesses hs lax (VDict data)
  = Ret (flatten_in_encounter_order (normalize hs lax) entities).
Proof.
  intros Hdata Hshape.
  unfold _extract_businesses. simpl. unfold dict_get. rewrite Hdata.
  rewrite list_entities_flatten; [ reflexivity | ].
  eapply Forall_impl; [ exact Hshape | ].
  intros e. apply direct_or_wrapper_sequence.
Qed.

Lemma list_shape_flattened_witness :
  exists out,
    _extract_businesses Samples.seed0 Samples.no_coercions
      (list_response
         [Samples.named "A" "1";
          VDict [("businesses", VList [Samples.named "B" "2"; VInt 3; Samples.named "C" "3"])];
          Samples.named "D" "4"]) = Ret out
    /\ map id out = ["1"; "2"; "3"; "4"]%string.
Proof.
  eexists. split.
  - apply list_shape_flattened with
      (entities := [Samples.named "A" "1";
                    VDict [("businesses",
                            VList [Samples.named "B" "2"; VInt 3; Samples.named "C" "3"])];
                    Samples.named "D" "4"]).
    + reflexivity.
    + constructor; [ | constructor; [ | constructor; [ | constructor ] ] ].
      * left. eexists. repeat split; reflexivity.
      * right. eexists. eexists. split; reflexivity.
      * left. eexists. repeat split; reflexivity.
  - vm_compute. reflexivity.
Defined.

(** ** Records without a name *)

Lemma nameless_body hs lax (r : list (string * value)) :
  lookup_key "name" r = None -> parse_business_body hs lax (VDict r) = Ret [].
Proof.
  intros Hname. unfold parse_business_body. simpl.
  rewrite (lookup_no_key _ _ Hname). reflexivity.
Qed.

Lemma nameless_normalize hs lax (r : list (string * value)) :
  lookup_key "name" r = None -> normalize hs lax (VDict r) = [].
Proof. intros Hname. unfold normalize. rewrite nameless_body; auto. Qed.

Lemma dict_entities_flat hs lax (items : list (string * value)) :
  forall collected,
    dict_entities hs lax collected items
    = Ret (collected ++ Reading.mapping_businesses (normalize hs lax) items).
Proof.
  unfold Reading.mapping_businesses.
  induction items as [ | [k e] items IH]; intros collected; simpl.
  - rewrite app_nil_r. reflexivity.
  - destruct (dict_with "name" e).
    + rewrite parse_business_is_normalize. simpl. rewrite IH, <- app_assoc.
      reflexivity.
    + apply IH.
Qed.

(** C4: a record without a [name] key is rejected, and a batch holding it is
    extracted as the outputs of the other records, in their order, with
    nothing for the record itself.  The batch may sit in a nested
    [businesses] array, in the list of entities itself (where a mapping with
    a [businesses] key is a wrapper, not a record), or in a legacy mapping. *)
Theorem nameless_record_omitted hs lax (r : list (string * value)) :
  lookup_key "name" r = None ->
  _parse_business hs lax (VDict r) = Ret [] /\
  (forall before after : list value,
      _extract_businesses hs lax (nested_response (before ++ VDict r :: after))
      = Ret (flat_map (normalize hs lax) before ++ flat_map (normalize hs lax) after)
      /\ _extract_businesses hs lax (nested_response (before ++ after))
         = Ret (flat_map (normalize hs lax) before ++ flat_map (normalize hs lax) after)) /\
  (forall before after : list value,
      lookup_key "businesses" r = None ->
      _extract_businesses hs lax (list_response (before ++ VDict r :: after))
      = _extract_businesses hs lax (list_response (before ++ after)) /\
      (Forall sequence_or_none before -> Forall sequence_or_none after ->
       _extract_businesses hs lax (list_response (before ++ VDict r :: after))
       = Ret (flatten_in_encounter_order (normalize hs lax) before
              ++ flatten_in_encounter_order (normalize hs lax) after))) /\
  (forall (before after : list (string * value)) (entity_id : string),
      _extract_businesses hs lax (mapping_response (before ++ (entity_id, VDict r) :: after))
      = Ret (Reading.mapping_businesses (normalize hs lax) before
             ++ Reading.mapping_businesses (normalize hs lax) after)
      /\ _extract_businesses hs lax (mapping_response (before ++ after))
         = Ret (Reading.mapping_businesses (normalize hs lax) before
                ++ Reading.mapping_businesses (normalize hs lax) after)).
Proof.
  intros Hname. split; [ | split; [ | split ] ].
  - rewrite parse_business_is_normalize, nameless_normalize; auto.
  - intros before after. split.
    + unfold _extract_businesses, nested_response. simpl.
      rewrite extend_each_flat_map. simpl.
      rewrite flat_map_app. simpl. rewrite nameless_normalize; auto.
    + unfold _extract_businesses, nested_response. simpl.
      rewrite extend_each_flat_map. simpl.
      rewrite flat_map_app. reflexivity.
  - intros before after Hwrapper.
    assert (Hskip : _extract_businesses hs lax (list_response (before ++ VDict r :: after))
                    = _extract_businesses hs lax (list_response (before ++ after))).
    { unfold _extract_businesses, list_response. simpl.
      rewrite !list_entities_app. simpl.
      rewrite (lookup_no_key _ _ Hname), (lookup_no_key _ _ Hwrapper). reflexivity. }
    split; [ exact Hskip | ].
    intros Hbefore Hafter. rewrite Hskip.
    unfold _extract_businesses, list_response. simpl.
    rewrite list_entities_flatten by (apply Forall_app; split; assumption).
    unfold flatten_in_encounter_order. rewrite flat_map_app. reflexivity.
  - intros before after entity_id.
    unfold _extract_businesses, mapping_response. simpl.
    rewrite !dict_entities_flat. unfold Reading.mapping_businesses.
    rewrite !flat_map_app. simpl.
    rewrite (lookup_no_key _ _ Hname). simpl. split; reflexivity.
Qed.

Lemma nameless_record_omitted_witness :
  _parse_business Samples.seed0 Samples.no_coercions (VDict Samples.nameless) = Ret [] /\
  (exists out,
      _extract_businesses Samples.seed0 Samples.no_coercions
        (nested_response [Samples.named "A" "1"; VDict Samples.nameless; Samples.named "B" "2"])
      = Ret out /\ map id out = ["1"; "2"]%string) /\
  (exists out,
      _extract_businesses Samples.seed0 Samples.no_coercions
        (list_response ([Samples.named "A" "1"] ++ VDict Samples.nameless
                        :: [Samples.named "B" "2"]))
      = Ret out /\ map id out = ["1"; "2"]%string) /\
  (exists out,
      _extract_businesses Samples.seed0 Samples.no_coercions
        (mapping_response ([("k1", Samples.named "A" "1")]
                           ++ ("k2", VDict Samples.nameless)
                           :: [("k3", Samples.named "B" "2")]))
      = Ret out /\ map id out = ["1"; "2"]%string).
Proof.
  destruct (nameless_record_omitted Samples.seed0 Samples.no_coercions
              Samples.nameless eq_refl) as (Hreject & Hnested & Hlist & Hmapping).
  split; [ exact Hreject | ]. split; [ | split ].
  - eexists. split.
    + exact (proj1 (Hnested [Samples.named "A" "1"] [Samples.named "B" "2"])).
    + vm_compute. reflexivity.
  - eexists. split.
    + apply (proj2 (Hlist [Samples.named "A" "1"] [Samples.named "B" "2"] eq_refl)).
      * constructor; [ | constructor ]. intros entries x [= <-] Hx. discriminate.
      * constructor; [ | constructor ]. intros entries x [= <-] Hx. discriminate.
    + vm_compute. reflexivity.
  - eexists. split.
    + exact (proj1 (Hmapping [("k1", Samples.named "A" "1")]
                      [("k3", Samples.named "B" "2")] "k2"%string)).
    + vm_compute. reflexivity.
Defined.

(** ** From a returned Business back to the steps that built it *)

Lemma Business_init_fields lax (i n r rc p d img t vo loc co ph u ca : value)
  (b : Business) :
  Business_init lax i n r rc p d img t vo loc co ph u ca = Ret b ->
  validate_str i = Some (id b) /\
  validate_str n = Some (name b) /\
  validate_optional validate_str d = Some (distance b) /\
  validate_optional validate_str img = Some (image b).
Proof.
  unfold Business_init. intros H.
  repeat match type of H with
         | context [match ?x with Some _ => _ | None => _ end] =>
             destruct x; try discriminate
         end.
  injection H as <-. simpl. repeat split; reflexivity.
Qed.

Lemma validate_str_value (v : value) (s : string) :
  validate_str v = Some s -> v = VStr s.
Proof. destruct v; simpl; intros H; try discriminate. congruence. Qed.

Lemma validate_optional_str_value (v : value) (o : option string) :
  validate_optional validate_str v = Some o -> v = optional_str_value o.
Proof.
  destruct v; simpl; intros H; try discriminate; injection H as <-; reflexivity.
Qed.

Lemma parse_Ret_inv hs lax (r : list (string * value)) (b : Business) :
  _parse_business hs lax (VDict r) = Ret [b] ->
  has_key "name" r = true /\
  image_url_of (VDict r) = Ret (optional_str_value (image b)) /\
  distance_of (VDict r) = Ret (optional_str_value (distance b)) /\
  id_of hs (VDict r) = Ret (VStr (id b)) /\
  dict_get r "name" (VStr EmptyString) = VStr (name b).
Proof.
  intros H. apply try_except_Ret_cons in H.
  unfold parse_business_body in H. simpl in H.
  destruct (has_key "name" r); simpl in H; [ | discriminate ].
  do 5 bind_inv H. simpl in H. bind_inv H. injection H as <-.
  apply Business_init_fields in Hstep4.
  destruct Hstep4 as (Hid & Hname & Hdist & Himg).
  apply validate_str_value in Hid, Hname.
  apply validate_optional_str_value in Hdist, Himg.
  subst. repeat split; assumption.
Qed.

(** ** Image resolution *)

Lemma image_url_present (r : list (string * value)) (v : value) :
  lookup_key "image_url" r = Some v -> image_url_of (VDict r) = Ret v.
Proof.
  intros H. unfold image_url_of. simpl. unfold has_key. rewrite H. reflexivity.
Qed.

Lemma first_photo_cons (photo : value) (rest : list value) :
  first_photo (VList (photo :: rest)) = Ret (photo_url photo).
Proof. destruct photo; reflexivity. Qed.

Lemma image_url_direct_photos (r : list (string * value)) (photo : value)
  (rest : list value) :
  lookup_key "image_url" r = None ->
  lookup_key "contextual_info" r = None ->
  lookup_key "photos" r = Some (VList (photo :: rest)) ->
  image_url_of (VDict r) = Ret (photo_url photo).
Proof.
  intros Himg Hctx Hphotos. unfold image_url_of. simpl. unfold has_key.
  rewrite Himg, Hctx, Hphotos. simpl. destruct photo; reflexivity.
Qed.

(** With the [contextual_info] key present the third branch is not reached. *)
Lemma image_url_contextual_blocks (r ctx : list (string * value)) :
  lookup_key "image_url" r = None ->
  lookup_key "contextual_info" r = Some (VDict ctx) ->
  lookup_key "photos" ctx = None ->
  image_url_of (VDict r) = Ret VNone.
Proof.
  intros Himg Hctx Hphotos. unfold image_url_of. simpl. unfold has_key.
  rewrite Himg, Hctx. simpl. unfold has_key. rewrite Hphotos. reflexivity.
Qed.

(** C7: when the [image_url] key is present its value is the image, null
    included: the other locations are not looked at, and the image of the
    Business that comes out is that value. *)
Theorem image_url_key_short_circuits hs lax (r : list (string * value)) (v : value) :
  lookup_key "image_url" r = Some v ->
  image_url_of (VDict r) = Ret v /\
  forall b, _parse_business hs lax (VDict r) = Ret [b] ->
            optional_str_value (image b) = v.
Proof.
  intros Hkey. split.
  - apply image_url_present. exact Hkey.
  - intros b Hb. apply parse_Ret_inv in Hb. destruct Hb as (_ & Himg & _).
    rewrite (image_url_present _ _ Hkey) in Himg. congruence.
Qed.

Lemma image_url_key_short_circuits_witness :
  exists b, Samples.parse0 (VDict Samples.null_image_url) = Ret [b] /\
            optional_str_value (image b) = VNone.
Proof.
  eexists. split.
  - vm_compute. reflexivity.
  - apply (proj2 (image_url_key_short_circuits Samples.seed0 Samples.no_coercions
                    Samples.null_image_url VNone eq_refl)).
    vm_compute. reflexivity.
Defined.

(** C1, as the code has it: when the record has neither an [image_url] key
    nor a [contextual_info] key and [photos] directly under the record is a
    non-empty list, the image is resolved from its first element: the
    element's [original_url] if it is a mapping, the element itself
    otherwise. *)
Theorem direct_photos_fallback hs lax (r : list (string * value)) (photo : value)
  (rest : list value) :
  lookup_key "image_url" r = None ->
  lookup_key "contextual_info" r = None ->
  lookup_key "photos" r = Some (VList (photo :: rest)) ->
  image_url_of (VDict r) = Ret (photo_url photo) /\
  forall b, _parse_business hs lax (VDict r) = Ret [b] ->
            optional_str_value (image b) = photo_url photo.
Proof.
  intros Himg Hctx Hphotos.
  pose proof (image_url_direct_photos r photo rest Himg Hctx Hphotos) as Hstep.
  split; [ exact Hstep | ].
  intros b Hb. apply parse_Ret_inv in Hb. destruct Hb as (_ & Hb & _).
  congruence.
Qed.

Lemma direct_photos_fallback_witness :
  exists b, Samples.parse0 (VDict Samples.direct_photos) = Ret [b] /\
            optional_str_value (image b) = VStr "http://a".
Proof.
  eexists. split.
  - vm_compute. reflexivity.
  - apply (proj2 (direct_photos_fallback Samples.seed0 Samples.no_coercions
                    Samples.direct_photos
                    (VDict [("original_url", VStr "http://a")]) []
                    eq_refl eq_refl eq_refl)).
    vm_compute. reflexivity.
Defined.

(** C1 as stated fails: the record below has no [image_url] key, a
    [contextual_info] mapping without [photos], and a non-empty [photos] list
    of its own, yet its image is null, not ["http://x"]. *)
Lemma contextual_info_blocks_direct_photos :
  lookup_key "image_url" Samples.contextual_without_photos = None /\
  lookup_key "contextual_info" Samples.contextual_without_photos = Some (VDict []) /\
  lookup_key "photos" Samples.contextual_without_photos = Some (VList [VStr "http://x"]) /\
  image_url_of (VDict Samples.contextual_without_photos) = Ret VNone /\
  exists b, Samples.parse0 (VDict Samples.contextual_without_photos) = Ret [b] /\
            image b = None /\
            optional_str_value (image b) <> photo_url (VStr "http://x").
Proof.
  repeat split; try reflexivity.
  eexists. split; [ vm_compute; reflexivity | ].
  split; [ reflexivity | simpl; discriminate ].
Qed.

(** ** Distance *)

(** [format_1f] rounds correctly: the integer of tenths it prints is within
    half a tenth of the exact value, and an exact tie goes to the even one. *)
Lemma round_half_even_nearest (num den : Z) :
  0 < den -> 2 * Z.abs (round_half_even num den * den - num) <= den.
Proof.
  intros Hden. unfold round_half_even.
  pose proof (Z.div_mod num den ltac:(lia)) as Hdm.
  pose proof (Z.mod_pos_bound num den Hden) as Hr.
  set (q := num / den) in *. set (rm := num mod den) in *.
  destruct (Z.compare_spec (2 * rm) den) as [Heq | Hlt | Hgt];
    [ destruct (Z.even q) | | ]; nia.
Qed.

Lemma round_half_even_tie (num den : Z) :
  2 * (num mod den) = den -> Z.even (round_half_even num den) = true.
Proof.
  intros Htie. unfold round_half_even.
  rewrite (proj2 (Z.compare_eq_iff _ _) Htie).
  destruct (Z.even (num / den)) eqn:E; [ exact E | ].
  rewrite Z.add_1_r, Z.even_succ, <- Z.negb_even, E. reflexivity.
Qed.

Lemma digit_is_one_character (d : Z) :
  0 <= d < 10 -> String.length (pretty d) = 1%nat.
Proof.
  intros Hd.
  assert (d = 0 \/ d = 1 \/ d = 2 \/ d = 3 \/ d = 4 \/ d = 5 \/ d = 6 \/
          d = 7 \/ d = 8 \/ d = 9) as Hcases by lia.
  repeat (destruct Hcases as [-> | Hcases]; [ vm_compute; reflexivity | ]).
  subst d. vm_compute. reflexivity.
Qed.

(** For a finite float the printed text is the sign, the whole part, a point
    and exactly one digit. *)
Lemma format_1f_finite (x : float) (s : bool) (m : positive) (e : Z) :
  Prim2SF x = S754_finite s m e ->
  format_1f x
  = (sign_str s ++ pretty (tenths m e / 10) ++ "." ++ pretty (tenths m e mod 10))%string
  /\ String.length (pretty (tenths m e mod 10)) = 1%nat.
Proof.
  intros Hx. unfold format_1f. rewrite Hx. split; [ reflexivity | ].
  apply digit_is_one_character. apply Z.mod_pos_bound. lia.
Qed.

Lemma round_half_even_tie_even (num den : Z) :
  0 < den ->
  2 * Z.abs (round_half_even num den * den - num) = den ->
  Z.even (round_half_even num den) = true.
Proof.
  intros Hden. unfold round_half_even.
  pose proof (Z.div_mod num den ltac:(lia)) as Hdm.
  pose proof (Z.mod_pos_bound num den Hden) as Hr.
  set (q := num / den) in *. set (rm := num mod den) in *.
  destruct (Z.compare_spec (2 * rm) den) as [Heq | Hlt | Hgt].
  - destruct (Z.even q) eqn:E; intros _; [ exact E | ].
    rewrite Z.add_1_r, Z.even_succ, <- Z.negb_even, E. reflexivity.
  - intros Htie. exfalso. nia.
  - intros Htie. exfalso. nia.
Qed.

Lemma round_half_even_nonneg (num den : Z) :
  0 <= num -> 0 < den -> 0 <= round_half_even num den.
Proof.
  intros Hnum Hden. unfold round_half_even.
  pose proof (Z.div_pos num den Hnum Hden) as Hq.
  destruct (2 * (num mod den) ?= den); [ destruct (Z.even (num / den)) | | ]; lia.
Qed.

Lemma tenths_nonneg (m : positive) (e : Z) : 0 <= tenths m e.
Proof.
  unfold tenths. destruct (0 <=? e) eqn:He.
  - apply Z.leb_le in He. pose proof (Z.pow_nonneg 2 e ltac:(lia)). nia.
  - apply round_half_even_nonneg; [ lia | ]. apply Z.pow_pos_nonneg; lia.
Qed.

Lemma tenths_nearest (m : positive) (e : Z) : nearest_tenths m e (tenths m e).
Proof.
  unfold nearest_tenths, tenths. destruct (0 <=? e) eqn:He; [ reflexivity | ].
  apply Z.leb_gt in He.
  assert (Hden : 0 < 2 ^ (- e)) by (apply Z.pow_pos_nonneg; lia).
  split.
  - apply round_half_even_nearest. exact Hden.
  - apply round_half_even_tie_even. exact Hden.
Qed.

(** The text [format_1f] produces is what ['.1f'] is to print. *)
Lemma format_1f_printed (x : float) : printed_1f x (format_1f x).
Proof.
  unfold printed_1f, one_decimal_place, format_1f.
  destruct (Prim2SF x) as [s | s | | s m e]; try reflexivity.
  pose proof (tenths_nonneg m e) as Ht.
  exists (tenths m e / 10), (tenths m e mod 10).
  split; [ apply Z.div_pos; lia | ].
  split; [ apply Z.mod_pos_bound; lia | ].
  split; [ | reflexivity ].
  rewrite <- (Z.div_mod (tenths m e) 10) by lia. apply tenths_nearest.
Qed.

Lemma float_operand_meters (meters : value) (x : float) :
  float_operand meters = Ret x -> meters_as_float meters x.
Proof.
  destruct meters; simpl; try discriminate.
  - intros [= <-]. reflexivity.
  - unfold float_of_int.
    destruct (binary_normalize prec emax n 0 false) eqn:E; try discriminate;
      intros [= <-]; (split; [ reflexivity | discriminate ]).
  - intros [= <-]. reflexivity.
Qed.

(** C6, as the code has it: the distance of a Business that comes out of a
    record is absent when the record has no [distance] or a falsy one;
    otherwise the raw distance is a number, and the distance is that number
    as a float times 0.000621371, printed as ['.1f'] prints it and followed
    by " mi": one decimal place, the nearest tenth, when the product is
    finite, and "inf", "-inf" or "nan" when it is not. *)
Theorem distance_in_miles hs lax (r : list (string * value)) (b : Business) :
  _parse_business hs lax (VDict r) = Ret [b] ->
  match lookup_key "distance" r with
  | Some meters =>
      if truthy meters
      then exists x text,
          meters_as_float meters x /\
          printed_1f (PrimFloat.mul x METERS_TO_MILES) text /\
          distance b = Some (text ++ " mi")%string
      else distance b = None
  | None => distance b = None
  end.
Proof.
  intros Hb. apply parse_Ret_inv in Hb. destruct Hb as (_ & _ & Hd & _).
  unfold distance_of in Hd. simpl in Hd. unfold has_key in Hd.
  destruct (lookup_key "distance" r) as [meters | ]; simpl in Hd.
  - destruct (truthy meters).
    + unfold py_mul_float in Hd.
      destruct (float_operand meters) as [x | ] eqn:Hx; simpl in Hd;
        [ | discriminate ].
      exists x, (format_1f (PrimFloat.mul x METERS_TO_MILES)).
      split; [ apply float_operand_meters; exact Hx | ].
      split; [ apply format_1f_printed | ].
      destruct (distance b); simpl in Hd; congruence.
    + destruct (distance b); simpl in Hd; [ discriminate | reflexivity ].
  - destruct (distance b); simpl in Hd; [ discriminate | reflexivity ].
Qed.

Lemma distance_in_miles_witness :
  exists b, Samples.parse0 (VDict Samples.one_mile) = Ret [b] /\
            (exists x text,
                meters_as_float (VFloat Samples.one_mile_meters) x /\
                printed_1f (PrimFloat.mul x METERS_TO_MILES) text /\
                distance b = Some (text ++ " mi")%string) /\
            distance b = Some "1.0 mi"%string.
Proof.
  eexists. split; [ vm_compute; reflexivity | ]. split.
  - exact (distance_in_miles Samples.seed0 Samples.no_coercions Samples.one_mile
             _ eq_refl).
  - vm_compute. reflexivity.
Defined.

(** C6 as stated fails on "exactly one decimal place": a distance the JSON
    decoder reads as infinity (1e999) is present and truthy, the record is
    accepted, and its distance is "inf mi", which has no decimal place. *)
Lemma infinite_distance_has_no_decimal :
  lookup_key "distance" Samples.infinite_distance = Some (VFloat infinity) /\
  truthy (VFloat infinity) = true /\
  exists b, Samples.parse0 (VDict Samples.infinite_distance) = Ret [b] /\
            distance b = Some "inf mi"%string /\
            is_substring "." "inf mi" = false /\
            forall text, ~ one_decimal_place
                             (PrimFloat.mul infinity METERS_TO_MILES) text.
Proof.
  split; [ reflexivity | ]. split; [ reflexivity | ].
  eexists. split; [ vm_compute; reflexivity | ].
  split; [ reflexivity | ]. split; [ reflexivity | ].
  intros text H. vm_compute in H. exact H.
Qed.

Example zero_distance_absent :
  exists b, Samples.parse0 (VDict Samples.zero_distance) = Ret [b] /\ distance b = None.
Proof. eexists. split; vm_compute; reflexivity. Qed.

(** ** Id resolution *)

Lemma id_of_dict hs (r : list (string * value)) (n : string) :
  lookup_key "name" r = Some (VStr n) ->
  id_of hs (VDict r)
  = Ret (dict_get r "id" (dict_get r "alias" (VStr (str_of_int (hash_str hs n))))).
Proof.
  intros Hname. unfold id_of. simpl. unfold dict_get at 1. rewrite Hname.
  reflexivity.
Qed.

Lemma parsed_name hs lax (r : list (string * value)) (b : Business) :
  _parse_business hs lax (VDict r) = Ret [b] ->
  lookup_key "name" r = Some (VStr (name b)).
Proof.
  intros Hb. apply parse_Ret_inv in Hb. destruct Hb as (Hkey & _ & _ & _ & Hname).
  apply has_key_lookup in Hkey. destruct Hkey as (v & Hv).
  unfold dict_get in Hname. rewrite Hv in Hname. congruence.
Qed.

Lemma parsed_id hs lax (r : list (string * value)) (b : Business) :
  _parse_business hs lax (VDict r) = Ret [b] ->
  VStr (id b)
  = dict_get r "id" (dict_get r "alias" (VStr (str_of_int (hash_str hs (name b))))).
Proof.
  intros Hb. pose proof (parsed_name _ _ _ _ Hb) as Hname.
  apply parse_Ret_inv in Hb. destruct Hb as (_ & _ & _ & Hid & _).
  rewrite (id_of_dict hs r _ Hname) in Hid. congruence.
Qed.

(** C3, as the code has it: the id of a Business is the raw [id] if that key
    is present, else the raw [alias], else the string form of the built-in
    hash of the name; so, within one interpreter process, two records with
    the same name and neither [id] nor [alias] get the same id.  The hash,
    and with it the derived id, depends on the process's hash secret. *)
Theorem id_resolution hs lax (r : list (string * value)) (b : Business) :
  _parse_business hs lax (VDict r) = Ret [b] ->
  lookup_key "name" r = Some (VStr (name b)) /\
  VStr (id b)
  = match lookup_key "id" r with
    | Some raw_id => raw_id
    | None =>
        match lookup_key "alias" r with
        | Some raw_alias => raw_alias
        | None => VStr (str_of_int (hash_str hs (name b)))
        end
    end /\
  forall (r' : list (string * value)) (b' : Business),
    lookup_key "name" r' = lookup_key "name" r ->
    lookup_key "id" r = None -> lookup_key "alias" r = None ->
    lookup_key "id" r' = None -> lookup_key "alias" r' = None ->
    _parse_business hs lax (VDict r') = Ret [b'] ->
    id b' = id b.
Proof.
  intros Hb.
  pose proof (parsed_name _ _ _ _ Hb) as Hname.
  pose proof (parsed_id _ _ _ _ Hb) as Hid.
  split; [ exact Hname | ]. split; [ exact Hid | ].
  intros r' b' Hsame Hi Ha Hi' Ha' Hb'.
  pose proof (parsed_name _ _ _ _ Hb') as Hname'.
  pose proof (parsed_id _ _ _ _ Hb') as Hid'.
  unfold dict_get in Hid, Hid'.
  rewrite Hi, Ha in Hid. rewrite Hi', Ha' in Hid'.
  rewrite Hsame, Hname in Hname'.
  injection Hname' as Hn. rewrite <- Hn in Hid'. congruence.
Qed.

Lemma id_resolution_witness :
  exists b b',
    Samples.parse0 (VDict Samples.only_name) = Ret [b] /\
    Samples.parse0 (VDict Samples.name_and_rating) = Ret [b'] /\
    VStr (id b) = VStr (str_of_int (hash_str Samples.seed0 (name b))) /\
    id b' = id b.
Proof.
  do 2 eexists.
  split; [ vm_compute; reflexivity | ].
  split; [ vm_compute; reflexivity | ].
  destruct (id_resolution Samples.seed0 Samples.no_coercions Samples.only_name _ eq_refl)
    as (_ & Hid & Hsame).
  split; [ exact Hid | ].
  apply (Hsame Samples.name_and_rating); reflexivity.
Defined.

(** C3 as stated fails on "repeatable across runs": the same record gets one
    id in an interpreter started with [PYTHONHASHSEED=0] and another in one
    started with [PYTHONHASHSEED=1]. *)
Lemma derived_id_differs_between_runs :
  lookup_key "id" Samples.only_name = None /\
  lookup_key "alias" Samples.only_name = None /\
  exists b0 b1,
    _parse_business Samples.seed0 Samples.no_coercions (VDict Samples.only_name) = Ret [b0] /\
    _parse_business Samples.seed1 Samples.no_coercions (VDict Samples.only_name) = Ret [b1] /\
    id b0 = "-1454356908258778490"%string /\
    id b1 = "3010739813545375555"%string /\
    id b0 <> id b1.
Proof.
  split; [ reflexivity | ]. split; [ reflexivity | ].
  do 2 eexists.
  split; [ vm_compute; reflexivity | ].
  split; [ vm_compute; reflexivity | ].
  split; [ reflexivity | ]. split; [ reflexivity | ].
  simpl. discriminate.
Qed.

(** C9: a record with a name whose [id] key holds null is rejected: the
    [id=] argument is that null (neither the alias nor the hash replaces
    it), [Business(...)] refuses it, and [_parse_business] returns []. *)
Theorem null_id_rejected hs lax (r : list (string * value)) :
  has_key "name" r = true ->
  lookup_key "id" r = Some VNone ->
  _parse_business hs lax (VDict r) = Ret [] /\
  (forall n h, lookup_key "name" r = Some n -> py_hash hs n = Ret h ->
               id_of hs (VDict r) = Ret VNone) /\
  (forall n ra rc p d img t vo loc co ph u ca : value,
      Business_init lax VNone n ra rc p d img t vo loc co ph u ca
      = Raise ValidationError).
Proof.
  intros Hname Hid. split; [ | split ].
  - rewrite parse_business_is_normalize. f_equal.
    pose proof (normalize_at_most_one hs lax (VDict r)) as Hlen.
    destruct (normalize hs lax (VDict r)) as [ | b [ | b' l]] eqn:E;
      [ reflexivity | | simpl in Hlen; lia ].
    exfalso.
    pose proof (parse_business_is_normalize hs lax (VDict r)) as Hb.
    rewrite E in Hb. pose proof (parsed_id _ _ _ _ Hb) as Hraw.
    unfold dict_get in Hraw. rewrite Hid in Hraw. discriminate.
  - intros n h Hn Hh. unfold id_of. simpl. unfold dict_get at 1. rewrite Hn, Hh.
    simpl. unfold dict_get at 1. rewrite Hid. reflexivity.
  - intros. reflexivity.
Qed.

Lemma null_id_rejected_witness :
  Samples.parse0 (VDict Samples.null_id) = Ret [] /\
  id_of Samples.seed0 (VDict Samples.null_id) = Ret VNone.
Proof.
  destruct (null_id_rejected Samples.seed0 Samples.no_coercions Samples.null_id
              eq_refl eq_refl) as (Hreject & Harg & _).
  split; [ exact Hreject | ].
  apply (Harg (VStr "A") (hash_str Samples.seed0 "A")); reflexivity.
Defined.

(** ** The OAuth callback *)

Import Main.

Lemma callback_unknown_state (exchange : string -> result value)
  (str_of_exn : exn -> string) (code state : string) (w : world) :
  oauth_states w !! state = None ->
  calendar_auth_callback exchange str_of_exn code state w
  = (Raise (HTTPException 500
              (VStr (str_of_exn (HTTPException 400 (VStr "Invalid state parameter"))))),
     w).
Proof.
  intros Hstate. unfold calendar_auth_callback, callback_body.
  rewrite Hstate. reflexivity.
Qed.

(** The sibling endpoint lets its own 400 through. *)
Lemma create_event_missing_fields (create_event : value -> value -> value -> result value)
  (str_of_exn : exn -> string) (request : list (string * value)) :
  lookup_key "access_token" request = None ->
  http_status (create_calendar_event create_event str_of_exn (VDict request)) = 400.
Proof.
  intros Hmissing. unfold create_calendar_event. simpl.
  unfold dict_get at 1. rewrite Hmissing. reflexivity.
Qed.

(** C2, at a request with a state token nobody issued: the 400 raised at
    line 359 is caught by the handler's own [except Exception] and answered
    as a 500; the token exchange is not called and the store is untouched. *)
Theorem callback_unknown_state_is_500 (exchange : string -> result value)
  (str_of_exn : exn -> string) :
  let answer := calendar_auth_callback exchange str_of_exn "abc" "unknown"
                  Samples.fresh_world in
  http_status (fst answer) = 500 /\
  http_status (fst answer) <> 400 /\
  http_status (fst (callback_body exchange "abc" "unknown" Samples.fresh_world)) = 400 /\
  exchanged (snd answer) = [] /\
  snd answer = Samples.fresh_world.
Proof.
  simpl. rewrite callback_unknown_state by reflexivity. simpl.
  repeat split; try reflexivity. discriminate.
Qed.

(* ===================================================================== *)
(** * Further properties of the normalizer *)
(* ===================================================================== *)

Lemma Business_init_all lax (i n r rc p d img t vo loc co ph u ca : value)
  (b : Business) :
  Business_init lax i n r rc p d img t vo loc co ph u ca = Ret b ->
  validate_optional (validate_float lax) r = Some (rating b) /\
  validate_optional (validate_int lax) rc = Some (reviews b) /\
  validate_optional validate_str p = Some (price b) /\
  validate_list validate_str t = Some (tags b) /\
  validate_int lax vo = Some (votes b) /\
  validate_optional (validate_dict Some) loc = Some (location b) /\
  validate_optional (validate_coordinates lax) co = Some (coordinates b) /\
  validate_optional validate_str ph = Some (phone b) /\
  validate_optional validate_str u = Some (url b) /\
  validate_optional (validate_list (validate_dict validate_str)) ca
  = Some (categories b).
Proof.
  unfold Business_init. intros H.
  repeat match type of H with
         | context [match ?x with Some _ => _ | None => _ end] =>
             destruct x; try discriminate
         end.
  injection H as <-. simpl. repeat split; reflexivity.
Qed.

(** Everything [Business(...)] was given, for a record that came through. *)
Lemma parse_Ret_steps hs lax (r : list (string * value)) (b : Business) :
  _parse_business hs lax (VDict r) = Ret [b] ->
  exists tags_ coordinates_,
    tags_of (VDict r) = Ret tags_ /\
    coordinates_of (VDict r) = Ret coordinates_ /\
    validate_list validate_str (VList tags_) = Some (tags b) /\
    validate_optional (validate_coordinates lax) coordinates_ = Some (coordinates b) /\
    votes b = 0 /\
    validate_optional (validate_float lax) (dict_get r "rating" VNone) = Some (rating b) /\
    validate_optional (validate_int lax) (dict_get r "review_count" (VInt 0))
    = Some (reviews b) /\
    validate_optional validate_str (dict_get r "price" VNone) = Some (price b) /\
    validate_optional (validate_dict Some) (dict_get r "location" VNone)
    = Some (location b) /\
    validate_optional validate_str (dict_get r "phone" VNone) = Some (phone b) /\
    validate_optional validate_str (dict_get r "url" VNone) = Some (url b).
Proof.
  intros H. apply try_except_Ret_cons in H.
  unfold parse_business_body in H. simpl in H.
  destruct (has_key "name" r); simpl in H; [ | discriminate ].
  do 5 bind_inv H. simpl in H. bind_inv H. injection H as <-.
  apply Business_init_all in Hstep4.
  destruct Hstep4 as (Hr & Hrc & Hp & Ht & Hvo & Hloc & Hco & Hph & Hu & _).
  exists a, a1. simpl in Hvo. injection Hvo as Hvo.
  repeat split; auto.
Qed.

Lemma validate_each_str (items : list value) (l : list string) :
  validate_each validate_str items = Some l -> items = map VStr l.
Proof.
  revert l. induction items as [ | x items IH]; intros l; simpl.
  - intros [= <-]. reflexivity.
  - destruct (validate_str x) as [s | ] eqn:Hx; [ | discriminate ].
    destruct (validate_each validate_str items) as [others | ]; [ | discriminate ].
    intros [= <-]. simpl. rewrite (validate_str_value _ _ Hx), (IH others eq_refl).
    reflexivity.
Qed.

Lemma category_titles_strings (cats : list value) (l : list string) :
  category_titles cats = Ret (map VStr l) -> l = Reading.titles cats.
Proof.
  revert l. induction cats as [ | cat cats IH]; intros l; simpl.
  - destruct l; [ reflexivity | discriminate ].
  - destruct cat as [ | | | | | | entries]; simpl; try discriminate.
    unfold dict_get. unfold Reading.titles in *. simpl.
    destruct (lookup_key "title" entries) as [t | ]; simpl; [ | apply IH ].
    destruct (truthy t) eqn:Ht.
    + intros H. bind_inv H. injection H as H.
      destruct l as [ | s l]; [ discriminate | ].
      simpl in H. injection H as -> ->.
      simpl in Ht. destruct (String.eqb s EmptyString); [ discriminate | ].
      simpl. f_equal. apply IH. exact Hstep.
    + intros H. destruct t; try (apply IH; exact H).
      simpl in Ht. destruct (String.eqb s EmptyString); [ | discriminate ].
      apply IH. exact H.
Qed.

(** X1: the tags of a Business are the non-empty string titles of the raw
    [categories] list, in its order; without a [categories] list there are
    no tags. *)
Theorem tags_are_titles hs lax (r : list (string * value)) (b : Business) :
  _parse_business hs lax (VDict r) = Ret [b] ->
  match lookup_key "categories" r with
  | Some (VList cats) => tags b = Reading.titles cats
  | _ => tags b = []
  end.
Proof.
  intros Hb. apply parse_Ret_steps in Hb.
  destruct Hb as (ts & co & Htags & _ & Hval & _).
  simpl in Hval. apply validate_each_str in Hval. subst ts.
  unfold tags_of in Htags. simpl in Htags. unfold has_key in Htags.
  destruct (lookup_key "categories" r) as [c | ]; simpl in Htags.
  - destruct c; simpl in Htags;
      try (injection Htags as Htags; destruct (tags b); [ reflexivity | discriminate ]).
    + destruct b0; simpl in Htags; [ discriminate | ].
      injection Htags as Htags; destruct (tags b); [ reflexivity | discriminate ].
    + destruct (negb (n =? 0)); simpl in Htags; [ discriminate | ].
      injection Htags as Htags; destruct (tags b); [ reflexivity | discriminate ].
    + destruct (negb (PrimFloat.eqb x 0)); simpl in Htags; [ discriminate | ].
      injection Htags as Htags; destruct (tags b); [ reflexivity | discriminate ].
    + destruct (negb (String.eqb s EmptyString)) eqn:Hs; simpl in Htags.
      * destruct s as [ | c s]; [ discriminate | ]. simpl in Htags. discriminate.
      * injection Htags as Htags; destruct (tags b); [ reflexivity | discriminate ].
    + destruct items as [ | cat cats]; simpl in Htags.
      * injection Htags as Htags. destruct (tags b); [ reflexivity | discriminate ].
      * apply category_titles_strings. exact Htags.
    + destruct entries as [ | [k v] entries]; simpl in Htags; [ | discriminate ].
      injection Htags as Htags. destruct (tags b); [ reflexivity | discriminate ].
  - injection Htags as Htags. destruct (tags b); [ reflexivity | discriminate ].
Qed.

Lemma tags_are_titles_witness :
  exists b, Samples.parse0 (VDict Cases.with_categories) = Ret [b] /\
            tags b = ["Pizza"; "Bar"]%string.
Proof.
  eexists. split; [ vm_compute; reflexivity | ].
  exact (tags_are_titles Samples.seed0 Samples.no_coercions Cases.with_categories
           _ eq_refl).
Defined.

Lemma coordinates_of_dict (r : list (string * value)) :
  coordinates_of (VDict r)
  = Ret match lookup_key "coordinates" r with
        | Some (VDict entries) =>
            match lookup_key "latitude" entries, lookup_key "longitude" entries with
            | Some lat, Some lon => VDict [("latitude", lat); ("longitude", lon)]
            | _, _ => VNone
            end
        | _ => VNone
        end.
Proof.
  unfold coordinates_of. simpl. unfold dict_get.
  destruct (lookup_key "coordinates" r) as [c | ]; [ | reflexivity ].
  destruct c; simpl; try reflexivity;
    try (rewrite andb_false_r; reflexivity).
  destruct entries as [ | kv entries]; [ reflexivity | ].
  remember (kv :: entries) as cd eqn:Hcd. simpl. unfold has_key.
  destruct (lookup_key "latitude" cd); simpl; [ | reflexivity ].
  destruct (lookup_key "longitude" cd); reflexivity.
Qed.

(** X2: the coordinates step never raises on a mapping record: it yields the
    pair of raw values when the raw [coordinates] is a mapping holding both
    [latitude] and [longitude], and nothing otherwise (one key alone, an
    empty mapping, another type).  A Business that comes out has coordinates
    exactly in the first case, and they are the two values as floats. *)
Theorem coordinates_need_both hs lax (r : list (string * value)) :
  coordinates_of (VDict r)
  = Ret match lookup_key "coordinates" r with
        | Some (VDict entries) =>
            match lookup_key "latitude" entries, lookup_key "longitude" entries with
            | Some lat, Some lon => VDict [("latitude", lat); ("longitude", lon)]
            | _, _ => VNone
            end
        | _ => VNone
        end /\
  forall b : Business,
    _parse_business hs lax (VDict r) = Ret [b] ->
    match lookup_key "coordinates" r with
    | Some (VDict entries) =>
        match lookup_key "latitude" entries, lookup_key "longitude" entries with
        | Some lat, Some lon =>
            exists x y, validate_float lax lat = Some x /\
                        validate_float lax lon = Some y /\
                        coordinates b = Some {| latitude := x; longitude := y |}
        | _, _ => coordinates b = None
        end
    | _ => coordinates b = None
    end.
Proof.
  split; [ apply coordinates_of_dict | ].
  intros b Hb. apply parse_Ret_steps in Hb.
  destruct Hb as (ts & co & _ & Hco & _ & Hval & _).
  rewrite coordinates_of_dict in Hco. injection Hco as <-.
  assert (Hnone : validate_optional (validate_coordinates lax) VNone
                  = Some (coordinates b) -> coordinates b = None).
  { simpl. congruence. }
  destruct (lookup_key "coordinates" r) as [c | ]; [ | auto ].
  destruct c; auto.
  destruct (lookup_key "latitude" entries) as [lat | ] eqn:Hlat; [ | auto ].
  destruct (lookup_key "longitude" entries) as [lon | ] eqn:Hlon; [ | auto ].
  simpl in Hval.
  destruct (validate_float lax lat) as [x | ]; [ | discriminate ].
  destruct (validate_float lax lon) as [y | ]; [ | discriminate ].
  exists x, y. repeat split. simpl in Hval. congruence.
Qed.

Lemma coordinates_need_both_witness :
  (exists b, Samples.parse0 (VDict Cases.with_coordinates) = Ret [b] /\
             coordinates b
             = Some {| latitude := 40.5%float; longitude := (-74.25)%float |}) /\
  (exists b, Samples.parse0 (VDict Cases.latitude_only) = Ret [b] /\
             coordinates b = None).
Proof.
  split.
  - eexists. split; [ vm_compute; reflexivity | ].
    destruct (proj2 (coordinates_need_both Samples.seed0 Samples.no_coercions
                       Cases.with_coordinates) _ eq_refl)
      as (x & y & Hx & Hy & Hc).
    injection Hx as <-. injection Hy as <-. exact Hc.
  - eexists. split; [ vm_compute; reflexivity | ].
    exact (proj2 (coordinates_need_both Samples.seed0 Samples.no_coercions
                    Cases.latitude_only) _ eq_refl).
Defined.

Lemma validate_entries_Some (entries : list (string * value)) :
  validate_entries Some entries = Some entries.
Proof.
  induction entries as [ | [k v] entries IH]; simpl; [ reflexivity | ].
  rewrite IH. reflexivity.
Qed.

(** X3: [votes] is 0 whatever the raw record holds; [reviews] is 0 when
    [review_count] is missing, absent when it is null, and the raw integer
    otherwise. *)
Theorem votes_and_reviews hs lax (r : list (string * value)) (b : Business) :
  _parse_business hs lax (VDict r) = Ret [b] ->
  votes b = 0 /\
  match lookup_key "review_count" r with
  | None => reviews b = Some 0
  | Some VNone => reviews b = None
  | Some (VInt n) => reviews b = Some n
  | Some _ => True
  end.
Proof.
  intros Hb. apply parse_Ret_steps in Hb.
  destruct Hb as (ts & co & _ & _ & _ & _ & Hvotes & _ & Hrc & _).
  split; [ exact Hvotes | ].
  unfold dict_get in Hrc.
  destruct (lookup_key "review_count" r) as [v | ]; simpl in Hrc; [ | congruence ].
  destruct v; simpl in Hrc; try exact I; congruence.
Qed.

Lemma votes_and_reviews_witness :
  exists b, Samples.parse0 (VDict Cases.with_passthrough) = Ret [b] /\
            votes b = 0 /\ reviews b = Some 7.
Proof.
  eexists. split; [ vm_compute; reflexivity | ].
  exact (votes_and_reviews Samples.seed0 Samples.no_coercions Cases.with_passthrough
           _ eq_refl).
Defined.

(** X4: [name], [price], [phone], [url] and [location] of a Business are the
    raw values of those keys (absent when the key is missing or null). *)
Theorem passthrough_fields hs lax (r : list (string * value)) (b : Business) :
  _parse_business hs lax (VDict r) = Ret [b] ->
  lookup_key "name" r = Some (VStr (name b)) /\
  optional_str_value (price b) = dict_get r "price" VNone /\
  optional_str_value (phone b) = dict_get r "phone" VNone /\
  optional_str_value (url b) = dict_get r "url" VNone /\
  match location b with
  | Some entries => lookup_key "location" r = Some (VDict entries)
  | None => dict_get r "location" VNone = VNone
  end.
Proof.
  intros Hb. pose proof (parsed_name _ _ _ _ Hb) as Hname.
  apply parse_Ret_steps in Hb.
  destruct Hb as (ts & co & _ & _ & _ & _ & _ & _ & _ & Hp & Hloc & Hph & Hu).
  apply validate_optional_str_value in Hp, Hph, Hu.
  repeat split; auto.
  unfold dict_get in *.
  destruct (lookup_key "location" r) as [v | ]; simpl in Hloc.
  - destruct v; simpl in Hloc; try discriminate.
    + injection Hloc as <-. reflexivity.
    + rewrite validate_entries_Some in Hloc. simpl in Hloc.
      injection Hloc as <-. reflexivity.
  - injection Hloc as <-. reflexivity.
Qed.

Lemma passthrough_fields_witness :
  exists b, Samples.parse0 (VDict Cases.with_passthrough) = Ret [b] /\
            (lookup_key "name" Cases.with_passthrough = Some (VStr (name b)) /\
             optional_str_value (price b) = VStr "$$" /\
             optional_str_value (phone b) = VStr "+1" /\
             optional_str_value (url b) = VNone /\
             lookup_key "location" Cases.with_passthrough
             = Some (VDict [("city", VStr "X")])).
Proof.
  eexists. split; [ vm_compute; reflexivity | ].
  exact (passthrough_fields Samples.seed0 Samples.no_coercions
           Cases.with_passthrough _ eq_refl).
Defined.

(** X5: without an [image_url] key, a [contextual_info] mapping whose
    [photos] is a non-empty list gives the image: the first photo's
    [original_url] if it is a mapping, the photo itself otherwise. *)
Theorem contextual_photo_is_image hs lax (r ctx : list (string * value))
  (photo : value) (rest : list value) :
  lookup_key "image_url" r = None ->
  lookup_key "contextual_info" r = Some (VDict ctx) ->
  lookup_key "photos" ctx = Some (VList (photo :: rest)) ->
  image_url_of (VDict r) = Ret (photo_url photo) /\
  forall b, _parse_business hs lax (VDict r) = Ret [b] ->
            optional_str_value (image b) = photo_url photo.
Proof.
  intros Himg Hctx Hphotos.
  assert (Hstep : image_url_of (VDict r) = Ret (photo_url photo)).
  { unfold image_url_of. simpl. unfold has_key. rewrite Himg, Hctx. simpl.
    unfold has_key. rewrite Hphotos. simpl. destruct photo; reflexivity. }
  split; [ exact Hstep | ].
  intros b Hb. apply parse_Ret_inv in Hb. destruct Hb as (_ & Hb & _). congruence.
Qed.

Lemma contextual_photo_is_image_witness :
  exists b, Samples.parse0 (VDict Cases.contextual_photos) = Ret [b] /\
            optional_str_value (image b) = VStr "http://a".
Proof.
  eexists. split; [ vm_compute; reflexivity | ].
  apply (proj2 (contextual_photo_is_image Samples.seed0 Samples.no_coercions
                  Cases.contextual_photos
                  [("photos", VList [VDict [("original_url", VStr "http://a")]])]
                  (VDict [("original_url", VStr "http://a")]) []
                  eq_refl eq_refl eq_refl)).
  vm_compute. reflexivity.
Defined.

Lemma normalize_nil_or_one hs lax (v : value) :
  normalize hs lax v = [] \/ exists b, normalize hs lax v = [b].
Proof.
  pose proof (normalize_at_most_one hs lax v) as Hlen.
  destruct (normalize hs lax v) as [ | b [ | b' l]]; simpl in Hlen;
    [ left; reflexivity | right; eauto | lia ].
Qed.

Lemma rejected_unless_parsed hs lax (v : value) :
  (forall b, _parse_business hs lax v <> Ret [b]) ->
  _parse_business hs lax v = Ret [].
Proof.
  intros Hno. rewrite parse_business_is_normalize.
  destruct (normalize_nil_or_one hs lax v) as [-> | (b & Hb)]; [ reflexivity | ].
  exfalso. apply (Hno b). rewrite parse_business_is_normalize, Hb. reflexivity.
Qed.

(** X6: a record whose [id] key or [name] key holds anything but a string (a
    number, null, a list) is rejected as a whole. *)
Theorem non_string_id_or_name_rejected hs lax (r : list (string * value))
  (v : value) :
  (lookup_key "id" r = Some v \/ lookup_key "name" r = Some v) ->
  validate_str v = None ->
  _parse_business hs lax (VDict r) = Ret [].
Proof.
  intros Hkey Hv. apply rejected_unless_parsed. intros b Hb.
  destruct Hkey as [Hid | Hname].
  - pose proof (parsed_id _ _ _ _ Hb) as H. unfold dict_get in H.
    rewrite Hid in H. subst v. discriminate.
  - pose proof (parsed_name _ _ _ _ Hb) as H. rewrite Hname in H.
    injection H as ->. discriminate.
Qed.

Lemma non_string_id_or_name_rejected_witness :
  Samples.parse0 (VDict Cases.numeric_id) = Ret [].
Proof.
  apply (non_string_id_or_name_rejected Samples.seed0 Samples.no_coercions
           Cases.numeric_id (VInt 17)); [ left | ]; reflexivity.
Defined.

(** X7: a truthy [distance] that cannot be multiplied by a float (a string,
    a list, a mapping, an int beyond the float range) rejects the whole
    record. *)
Theorem unusable_distance_rejected hs lax (r : list (string * value))
  (meters : value) (e : exn) :
  lookup_key "distance" r = Some meters ->
  truthy meters = true ->
  float_operand meters = Raise e ->
  _parse_business hs lax (VDict r) = Ret [].
Proof.
  intros Hd Ht He. apply rejected_unless_parsed. intros b Hb.
  apply parse_Ret_inv in Hb. destruct Hb as (_ & _ & H & _).
  unfold distance_of in H. simpl in H. unfold has_key in H.
  rewrite Hd in H. simpl in H. rewrite Ht in H.
  unfold py_mul_float in H. rewrite He in H. discriminate.
Qed.

Lemma unusable_distance_rejected_witness :
  Samples.parse0 (VDict Cases.textual_distance) = Ret [] /\
  Samples.parse0 (VDict [("name", VStr "A"); ("id", VStr "1");
                         ("distance", VInt (10 ^ 400))]) = Ret [].
Proof.
  split.
  - apply (unusable_distance_rejected Samples.seed0 Samples.no_coercions
             Cases.textual_distance (VStr "far") TypeError); reflexivity.
  - apply (unusable_distance_rejected Samples.seed0 Samples.no_coercions
             _ (VInt (10 ^ 400)) OverflowError); vm_compute; reflexivity.
Defined.

(* ===================================================================== *)
(** * Further properties of the extractor *)
(* ===================================================================== *)

(** X8: on a legacy mapping of entities, [_extract_businesses] returns, in
    the order of the mapping, the Business of every value that is a mapping
    with a [name]; the keys play no part and nothing raises. *)
Theorem mapping_shape_in_order hs lax (data items : list (string * value)) :
  lookup_key "entities" data = Some (VDict items) ->
  _extract_businesses hs lax (VDict data)
  = Ret (Reading.mapping_businesses (normalize hs lax) items).
Proof.
  intros Hdata. unfold _extract_businesses. simpl. unfold dict_get.
  rewrite Hdata. apply dict_entities_flat.
Qed.

Lemma mapping_shape_in_order_witness :
  exists out,
    _extract_businesses Samples.seed0 Samples.no_coercions
      (mapping_response [("k1", Samples.named "A" "1"); ("k2", VInt 5);
                         ("k3", VDict Samples.nameless);
                         ("k4", Samples.named "B" "2")]) = Ret out
    /\ map id out = ["1"; "2"]%string.
Proof.
  eexists. split.
  - apply mapping_shape_in_order with
      (items := [("k1", Samples.named "A" "1"); ("k2", VInt 5);
                 ("k3", VDict Samples.nameless); ("k4", Samples.named "B" "2")]).
    reflexivity.
  - vm_compute. reflexivity.
Defined.

Lemma list_entities_raises hs lax (before after : list value)
  (w : list (string * value)) (x : value) :
  Forall sequence_or_none before ->
  lookup_key "businesses" w = Some x ->
  Reading.not_iterable x = true ->
  list_entities hs lax [] (before ++ VDict w :: after) = Raise TypeError.
Proof.
  intros Hbefore Hw Hx. rewrite list_entities_app.
  rewrite (list_entities_flatten hs lax before Hbefore). simpl.
  unfold has_key, dict_get. rewrite Hw.
  destruct x; try discriminate; reflexivity.
Qed.

(** X9: a wrapper entity whose [businesses] is null, a boolean or a number
    makes [_extract_businesses] raise [TypeError]: the loop over it is not
    guarded, and the businesses collected before it are lost. *)
Theorem non_iterable_businesses_raises hs lax (data : list (string * value))
  (before after : list value) (w : list (string * value)) (x : value) :
  lookup_key "entities" data = Some (VList (before ++ VDict w :: after)) ->
  Forall sequence_or_none before ->
  lookup_key "businesses" w = Some x ->
  Reading.not_iterable x = true ->
  _extract_businesses hs lax (VDict data) = Raise TypeError.
Proof.
  intros Hdata Hbefore Hw Hx. unfold _extract_businesses. simpl.
  unfold dict_get. rewrite Hdata. apply list_entities_raises with (x := x); auto.
Qed.

Lemma non_iterable_businesses_raises_witness :
  _extract_businesses Samples.seed0 Samples.no_coercions
    (list_response [Samples.named "A" "1"; VDict [("businesses", VNone)];
                    Samples.named "B" "2"]) = Raise TypeError.
Proof.
  apply non_iterable_businesses_raises with
    (before := [Samples.named "A" "1"]) (after := [Samples.named "B" "2"])
    (w := [("businesses", VNone)]) (x := VNone); try reflexivity.
  constructor; [ | constructor ].
  intros entries x [= <-] Hx. discriminate.
Defined.

Lemma normalize_all_non_dict hs lax (items : list value) :
  Forall (fun v => is_dict v = false) items ->
  flat_map (normalize hs lax) items = [].
Proof.
  induction 1 as [ | v items Hv _ IH]; simpl; [ reflexivity | ].
  rewrite (normalize_non_dict hs lax v Hv), IH. reflexivity.
Qed.

Lemma iterated_text_or_mapping (x : value) (items : list value) :
  match x with VStr _ | VDict _ => True | _ => False end ->
  py_iter x = Ret items -> Forall (fun v => is_dict v = false) items.
Proof.
  destruct x; simpl; try contradiction; intros _ [= <-];
    apply Forall_forall; intros v Hv; apply list_elem_of_In, in_map_iff in Hv;
    destruct Hv as (c & <- & _); reflexivity.
Qed.

(** X10: a wrapper entity whose [businesses] is a string or a mapping is
    iterated (over characters, over keys) and contributes nothing: the
    extraction is that of the list without it. *)
Theorem text_or_mapping_businesses_skipped hs lax (w : list (string * value))
  (x : value) (before after : list value) :
  lookup_key "businesses" w = Some x ->
  match x with VStr _ | VDict _ => True | _ => False end ->
  _extract_businesses hs lax (list_response (before ++ VDict w :: after))
  = _extract_businesses hs lax (list_response (before ++ after)).
Proof.
  intros Hw Hx. unfold _extract_businesses, list_response. simpl.
  rewrite !list_entities_app.
  destruct (list_entities hs lax [] before) as [collected | e]; simpl;
    [ | reflexivity ].
  unfold has_key, dict_get. rewrite Hw.
  destruct (py_iter x) as [items | e] eqn:Hiter;
    [ | destruct x; try contradiction; discriminate ].
  simpl. rewrite extend_each_flat_map.
  rewrite (normalize_all_non_dict hs lax items
             (iterated_text_or_mapping x items Hx Hiter)).
  simpl. rewrite app_nil_r. reflexivity.
Qed.

Lemma text_or_mapping_businesses_skipped_witness :
  _extract_businesses Samples.seed0 Samples.no_coercions
    (list_response ([Samples.named "A" "1"]
                    ++ VDict [("businesses", VStr "name")] :: [Samples.named "B" "2"]))
  = _extract_businesses Samples.seed0 Samples.no_coercions
      (list_response ([Samples.named "A" "1"] ++ [Samples.named "B" "2"])).
Proof.
  apply text_or_mapping_businesses_skipped with (x := VStr "name");
    [ reflexivity | exact I ].
Defined.

(* ===================================================================== *)
(** * [chat] and the Yelp endpoints *)
(* ===================================================================== *)

Import YelpChat.

Lemma lookup_dict_set_eq (entries : list (string * value)) (k : string) (v : value) :
  lookup_key k (dict_set entries k v) = Some v.
Proof.
  induction entries as [ | [k' x] entries IH]; simpl.
  - rewrite String.eqb_refl. reflexivity.
  - destruct (String.eqb k k') eqn:E; simpl; rewrite E; [ reflexivity | exact IH ].
Qed.

Lemma lookup_dict_set_ne (entries : list (string * value)) (k k' : string)
  (v : value) :
  k' <> k -> lookup_key k' (dict_set entries k v) = lookup_key k' entries.
Proof.
  intros Hne. induction entries as [ | [k0 x] entries IH]; simpl.
  - destruct (String.eqb_spec k' k); [ contradiction | reflexivity ].
  - destruct (String.eqb_spec k k0) as [-> | Hk]; simpl.
    + destruct (String.eqb_spec k' k0); [ contradiction | reflexivity ].
    + destruct (String.eqb k' k0); [ reflexivity | exact IH ].
Qed.

(** X11: the payload [chat] sends always carries the query; coordinates are
    sent only as a pair (a latitude without a longitude is dropped, and the
    other way round), next to the locale; [chat_id] is sent only when it is a
    non-empty string. *)
Theorem payload_shape (query : string) (latitude longitude : option float)
  (locale : string) (cid : option string) :
  let payload := build_payload query latitude longitude locale cid in
  lookup_key "query" payload = Some (VStr query) /\
  (forall uc, lookup_key "user_context" payload = Some uc ->
              exists entries,
                uc = VDict entries /\
                lookup_key "locale" entries = Some (VStr locale) /\
                has_key "latitude" entries = has_key "longitude" entries /\
                (has_key "latitude" entries = true ->
                 exists lat lon, latitude = Some lat /\ longitude = Some lon /\
                                 lookup_key "latitude" entries = Some (VFloat lat) /\
                                 lookup_key "longitude" entries = Some (VFloat lon))) /\
  (forall lat lon, latitude = Some lat -> longitude = Some lon ->
                   exists uc, lookup_key "user_context" payload = Some uc) /\
  (forall c, lookup_key "chat_id" payload = Some c ->
             exists s, cid = Some s /\ s <> EmptyString /\ c = VStr s).
Proof.
  unfold build_payload.
  set (p1 := match latitude, longitude with
             | Some lat, Some lon => _
             | _, _ => _
             end).
  assert (Hq1 : lookup_key "query" p1 = Some (VStr query)).
  { subst p1. destruct latitude, longitude; simpl; try reflexivity;
      destruct (String.eqb locale EmptyString); reflexivity. }
  assert (Hc1 : lookup_key "chat_id" p1 = None).
  { subst p1. destruct latitude, longitude; simpl; try reflexivity;
      destruct (String.eqb locale EmptyString); reflexivity. }
  assert (Hfinal : forall k, k <> "chat_id"%string ->
            lookup_key k (match cid with
                          | Some c => if truthy (VStr c)
                                      then dict_set p1 "chat_id" (VStr c) else p1
                          | None => p1
                          end) = lookup_key k p1).
  { intros k Hk. destruct cid as [c | ]; [ | reflexivity ].
    destruct (truthy (VStr c)); [ | reflexivity ].
    apply lookup_dict_set_ne. exact Hk. }
  split; [ | split; [ | split ] ].
  - rewrite Hfinal by discriminate. exact Hq1.
  - intros uc. rewrite Hfinal by discriminate. subst p1.
    destruct latitude as [lat | ], longitude as [lon | ]; simpl;
      try (destruct (String.eqb locale EmptyString); simpl; try discriminate);
      intros [= <-]; eexists; (split; [ reflexivity | ]);
      (split; [ reflexivity | ]); (split; [ reflexivity | ]);
      intros Hlat; cbn in Hlat; try discriminate Hlat;
      exists lat, lon; repeat split; reflexivity.
  - intros lat lon -> ->. rewrite Hfinal by discriminate. subst p1. simpl. eauto.
  - intros c. destruct cid as [s | ]; [ | rewrite Hc1; discriminate ].
    destruct (truthy (VStr s)) eqn:Hs; [ | rewrite Hc1; discriminate ].
    rewrite lookup_dict_set_eq. intros [= <-]. exists s. repeat split.
    intros ->. discriminate.
Qed.

Lemma chat_outcome hs lax post (query : string) (latitude longitude : option float)
  (locale : string) (cid : option string) :
  (exists resp, chat hs lax post query latitude longitude locale cid = Ret resp) \/
  (exists e, chat hs lax post query latitude longitude locale cid = Raise e).
Proof.
  destruct (chat hs lax post query latitude longitude locale cid) as [resp | e];
    [ left | right ]; eauto.
Qed.

(** X12: for a body that FastAPI has validated into a ChatRequest, the
    handler [yelp_chat] answers 200 or 500 and nothing else; whatever status
    Yelp refused with, and whenever Yelp could not be reached, the answer is
    a 500 whose detail is the text of the re-raised exception. *)
Theorem yelp_chat_status hs lax post (str_of_exn : exn -> string)
  (request : YelpEndpoints.ChatRequest) :
  (http_status (YelpEndpoints.yelp_chat hs lax post str_of_exn request) = 200 \/
   http_status (YelpEndpoints.yelp_chat hs lax post str_of_exn request) = 500) /\
  (forall status,
      YelpEndpoints.yelp_chat hs lax (Reading.refusing status) str_of_exn request
      = Raise (HTTPException 500
                 (VStr (str_of_exn
                          (ProviderError ("Yelp API error: " ++ pretty status)%string))))) /\
  (forall text,
      YelpEndpoints.yelp_chat hs lax (Reading.unreachable text) str_of_exn request
      = Raise (HTTPException 500
                 (VStr (str_of_exn
                          (ProviderError
                             ("Failed to connect to Yelp API: " ++ text)%string))))).
Proof.
  split; [ | split ].
  - unfold YelpEndpoints.yelp_chat.
    match goal with
    | |- context [chat hs lax post ?q ?la ?lo ?lc ?c] =>
        destruct (chat_outcome hs lax post q la lo lc c) as [(resp & ->) | (e & ->)]
    end; simpl; auto.
  - intros status. reflexivity.
  - intros text. reflexivity.
Qed.

Lemma ChatResponse_init_fields (text cid : value) (bs : list Business)
  (ty raw : value) (resp : ChatResponse) :
  ChatResponse_init text cid bs ty raw = Ret resp ->
  text = VStr (response_text resp) /\
  cid = optional_str_value (chat_id resp) /\
  businesses resp = bs /\
  validate_optional (validate_list validate_str) ty = Some (types resp) /\
  validate_optional (validate_dict Some) raw = Some (raw_response resp).
Proof.
  unfold ChatResponse_init. intros H.
  destruct (validate_str text) as [t | ] eqn:Ht; [ | discriminate ].
  destruct (validate_optional validate_str cid) as [c | ] eqn:Hc; [ | discriminate ].
  destruct (validate_optional (validate_list validate_str) ty) as [y | ];
    [ | discriminate ].
  destruct (validate_optional (validate_dict Some) raw) as [w | ]; [ | discriminate ].
  injection H as <-. simpl.
  apply validate_str_value in Ht. apply validate_optional_str_value in Hc.
  repeat split; auto.
Qed.

Lemma chat_response_fields_aux hs lax (d : list (string * value)) (resp : ChatResponse) :
  chat_response hs lax (VDict d) = Ret resp ->
  optional_str_value (chat_id resp) = dict_get d "chat_id" VNone /\
  exists entries,
    dict_get d "response" (VDict []) = VDict entries /\
    VStr (response_text resp) = dict_get entries "text" (VStr EmptyString).
Proof.
  unfold chat_response. simpl. intros H.
  bind_inv H. simpl in H. bind_inv H.
  apply ChatResponse_init_fields in H. destruct H as (Htext & Hcid & _).
  split; [ congruence | ].
  destruct (dict_get d "response" (VDict [])) as [ | | | | | | entries];
    try discriminate.
  exists entries. split; [ reflexivity | ]. simpl in Hstep. congruence.
Qed.

(** X13: what [chat] returns for a decoded body: [raw_response] is the body
    itself, [businesses] is what [_extract_businesses] returns for it,
    [chat_id] is the body's, the text is [response.text] (empty when
    [response] or [text] is missing) and [types] defaults to the empty
    list. *)
Theorem chat_response_fields hs lax (d : list (string * value)) (resp : ChatResponse) :
  chat_response hs lax (VDict d) = Ret resp ->
  raw_response resp = Some d /\
  _extract_businesses hs lax (VDict d) = Ret (businesses resp) /\
  optional_str_value (chat_id resp) = dict_get d "chat_id" VNone /\
  (exists entries,
      dict_get d "response" (VDict []) = VDict entries /\
      VStr (response_text resp) = dict_get entries "text" (VStr EmptyString)) /\
  (lookup_key "types" d = None -> types resp = Some []).
Proof.
  unfold chat_response. simpl. intros H.
  bind_inv H. simpl in H. bind_inv H.
  apply ChatResponse_init_fields in H.
  destruct H as (Htext & Hcid & Hbs & Hty & Hraw).
  simpl in Hraw. rewrite validate_entries_Some in Hraw. simpl in Hraw.
  injection Hraw as Hraw.
  split; [ auto | ]. split; [ congruence | ]. split; [ congruence | ]. split.
  - destruct (dict_get d "response" (VDict [])) as [ | | | | | | entries];
      try discriminate.
    exists entries. split; [ reflexivity | ]. simpl in Hstep. congruence.
  - intros Hnone. unfold dict_get in Hty. rewrite Hnone in Hty. simpl in Hty.
    congruence.
Qed.

Lemma chat_response_fields_witness :
  exists resp,
    chat_response Samples.seed0 Samples.no_coercions (VDict Cases.chat_body) = Ret resp /\
    VStr (response_text resp) = VStr "hi" /\
    optional_str_value (chat_id resp) = VStr "c1" /\
    map id (businesses resp) = ["1"]%string /\
    types resp = Some [].
Proof.
  eexists. split; [ vm_compute; reflexivity | ].
  destruct (chat_response_fields Samples.seed0 Samples.no_coercions Cases.chat_body
              _ eq_refl)
    as (_ & _ & Hcid & (entries & Hresp & Htext) & Hty).
  split; [ | split; [ exact Hcid | split; [ reflexivity | apply Hty; reflexivity ] ] ].
  injection Hresp as <-. exact Htext.
Defined.

(** X14: a body whose [response] is present but not a mapping (null, a
    string) makes [chat] raise [AttributeError], and the endpoint answer
    500. *)
Theorem non_mapping_response_is_500 hs lax (str_of_exn : exn -> string)
  (request : YelpEndpoints.ChatRequest) (d : list (string * value)) (v : value) :
  lookup_key "response" d = Some v ->
  is_dict v = false ->
  chat_response hs lax (VDict d) = Raise AttributeError /\
  http_status (YelpEndpoints.yelp_chat hs lax (Reading.answering (VDict d))
                 str_of_exn request) = 500.
Proof.
  intros Hv Hdict.
  assert (H : chat_response hs lax (VDict d) = Raise AttributeError).
  { unfold chat_response. simpl. unfold dict_get at 1. rewrite Hv.
    destruct v; try discriminate; reflexivity. }
  split; [ exact H | ].
  unfold YelpEndpoints.yelp_chat, chat, Reading.answering. rewrite H. reflexivity.
Qed.

Lemma non_mapping_response_is_500_witness :
  chat_response Samples.seed0 Samples.no_coercions
    (VDict [("response", VNone); ("entities", VList [])]) = Raise AttributeError.
Proof.
  apply (proj1 (non_mapping_response_is_500 Samples.seed0 Samples.no_coercions
                  Reading.class_name
                  {| YelpEndpoints.query := "pizza"; YelpEndpoints.user_context := None;
                     YelpEndpoints.chat_id := None |}
                  [("response", VNone); ("entities", VList [])] VNone
                  eq_refl eq_refl)).
Defined.

(** X15: one wrapper entity with a null (or numeric) [businesses] in Yelp's
    body turns the whole chat into a 500: [chat] does not guard the
    extraction. *)
Theorem bad_wrapper_aborts_chat hs lax (str_of_exn : exn -> string)
  (request : YelpEndpoints.ChatRequest) (data : list (string * value))
  (before after : list value) (w : list (string * value)) (x : value) :
  lookup_key "entities" data = Some (VList (before ++ VDict w :: after)) ->
  Forall sequence_or_none before ->
  lookup_key "businesses" w = Some x ->
  Reading.not_iterable x = true ->
  http_status (YelpEndpoints.yelp_chat hs lax (Reading.answering (VDict data))
                 str_of_exn request) = 500.
Proof.
  intros Hdata Hbefore Hw Hx.
  assert (Hextract : _extract_businesses hs lax (VDict data) = Raise TypeError).
  { unfold _extract_businesses. simpl. unfold dict_get. rewrite Hdata.
    apply list_entities_raises with (x := x); auto. }
  assert (H : exists e, chat_response hs lax (VDict data) = Raise e).
  { unfold chat_response. simpl.
    destruct (py_get (dict_get data "response" (VDict [])) "text" (VStr EmptyString))
      as [text | e]; simpl; [ | eauto ].
    rewrite Hextract. simpl. eauto. }
  destruct H as (e & H).
  unfold YelpEndpoints.yelp_chat, chat, Reading.answering. rewrite H. reflexivity.
Qed.

Lemma bad_wrapper_aborts_chat_witness :
  http_status
    (YelpEndpoints.yelp_chat Samples.seed0 Samples.no_coercions
       (Reading.answering
          (VDict [("response", VDict [("text", VStr "hi")]);
                  ("entities", VList [Samples.named "A" "1";
                                      VDict [("businesses", VNone)]])]))
       Reading.class_name
       {| YelpEndpoints.query := "pizza"; YelpEndpoints.user_context := None;
          YelpEndpoints.chat_id := None |}) = 500.
Proof.
  apply bad_wrapper_aborts_chat with
    (before := [Samples.named "A" "1"]) (after := [])
    (w := [("businesses", VNone)]) (x := VNone); try reflexivity.
  constructor; [ | constructor ].
  intros entries x [= <-] Hx. discriminate.
Defined.

(** X16: [/api/yelp/search] returns only businesses, yet it answers 500 when
    the envelope around them does not validate: a [chat_id] that is neither
    null nor a string, or a [response.text] that is not a string. *)
Theorem search_needs_valid_envelope hs lax (str_of_exn : exn -> string)
  (request : YelpEndpoints.SearchRequest) (d : list (string * value)) :
  (exists v, lookup_key "chat_id" d = Some v /\
             validate_optional validate_str v = None) \/
  (exists entries v, lookup_key "response" d = Some (VDict entries) /\
                     lookup_key "text" entries = Some v /\ validate_str v = None) ->
  http_status (YelpEndpoints.search_businesses hs lax (Reading.answering (VDict d))
                 str_of_exn request) = 500.
Proof.
  intros Hbad.
  assert (H : exists e, chat_response hs lax (VDict d) = Raise e).
  { destruct (chat_response hs lax (VDict d)) as [resp | e] eqn:E; [ | eauto ].
    exfalso. apply chat_response_fields_aux in E.
    destruct E as (Hcid & entries & Hresp & Htext).
    destruct Hbad as [(v & Hv & Hval) | (entries' & v & Hr & Ht & Hval)].
    - unfold dict_get in Hcid. rewrite Hv in Hcid. subst v.
      destruct (chat_id resp); discriminate.
    - unfold dict_get in Hresp. rewrite Hr in Hresp. injection Hresp as <-.
      unfold dict_get in Htext. rewrite Ht in Htext. subst v. discriminate. }
  destruct H as (e & H).
  unfold YelpEndpoints.search_businesses, search_businesses, chat, Reading.answering.
  rewrite H. reflexivity.
Qed.

Lemma search_needs_valid_envelope_witness :
  http_status
    (YelpEndpoints.search_businesses Samples.seed0 Samples.no_coercions
       (Reading.answering
          (VDict [("chat_id", VInt 7); ("entities", VList [Samples.named "A" "1"])]))
       Reading.class_name
       {| YelpEndpoints.search_query := "pizza";
          YelpEndpoints.search_latitude := None;
          YelpEndpoints.search_longitude := None;
          YelpEndpoints.search_locale := "en_US" |}) = 500.
Proof.
  apply search_needs_valid_envelope. left. exists (VInt 7). split; reflexivity.
Defined.

(* ===================================================================== *)
(** * The OAuth state store *)
(* ===================================================================== *)

Lemma callback_known_state (exchange : string -> result value)
  (str_of_exn : exn -> string) (code state : string) (w : world) (data : user_data) :
  oauth_states w !! state = Some data ->
  calendar_auth_callback exchange str_of_exn code state w
  = (match exchange code with
     | Ret tok => Ret {| success := true; callback_user_id := user_id data;
                         tokens := tok |}
     | Raise e => Raise (HTTPException 500 (VStr (str_of_exn e)))
     end,
     {| oauth_states := delete state (oauth_states w);
        exchanged := exchanged w ++ [code] |}).
Proof.
  intros Hstate. unfold calendar_auth_callback, callback_body.
  rewrite Hstate. destruct (exchange code); reflexivity.
Qed.

(** X17: an authorization flow round trip: after [start_calendar_auth] has
    issued a state for a user, the callback carrying that state and a code
    the provider accepts returns that user's id with the tokens, removes the
    state, and has called the exchange once with the code. *)
Theorem oauth_round_trip (get_url : string -> result string)
  (exchange : string -> result value) (str_of_exn : exn -> string)
  (state user code : string) (w : world) (tok : value) :
  exchange code = Ret tok ->
  let started := snd (start_calendar_auth get_url str_of_exn state user w) in
  let answered := calendar_auth_callback exchange str_of_exn code state started in
  fst answered
  = Ret {| success := true; callback_user_id := user; tokens := tok |} /\
  oauth_states (snd answered) !! state = None /\
  exchanged (snd answered) = exchanged w ++ [code].
Proof.
  intros Hexchange. simpl.
  rewrite (callback_known_state exchange str_of_exn code state _ {| user_id := user |})
    by (simpl; apply lookup_insert_eq).
  rewrite Hexchange. simpl. repeat split. apply lookup_delete_eq.
Qed.

Lemma oauth_round_trip_witness :
  fst (calendar_auth_callback (fun _ => Ret (VStr "tokens")) Reading.class_name
         "abc" "s1"
         (snd (start_calendar_auth (fun s => Ret s) Reading.class_name "s1" "u1"
                 Samples.fresh_world)))
  = Ret {| success := true; callback_user_id := "u1"; tokens := VStr "tokens" |}.
Proof.
  apply (oauth_round_trip (fun s => Ret s) (fun _ => Ret (VStr "tokens"))
           Reading.class_name "s1" "u1" "abc" Samples.fresh_world (VStr "tokens")
           eq_refl).
Defined.

(** X18: a state token is single-use: whatever the first callback with it
    did, the state is gone afterwards, and a second callback with the same
    state is refused without calling the exchange or changing the store. *)
Theorem state_is_single_use (exchange : string -> result value)
  (str_of_exn : exn -> string) (code code' state : string) (w : world) :
  let after := snd (calendar_auth_callback exchange str_of_exn code state w) in
  oauth_states after !! state = None /\
  calendar_auth_callback exchange str_of_exn code' state after
  = (Raise (HTTPException 500
              (VStr (str_of_exn (HTTPException 400 (VStr "Invalid state parameter"))))),
     after).
Proof.
  assert (Hgone : oauth_states
                    (snd (calendar_auth_callback exchange str_of_exn code state w))
                  !! state = None).
  { destruct (oauth_states w !! state) as [data | ] eqn:Hstate.
    - rewrite (callback_known_state _ _ _ _ _ data Hstate). simpl.
      apply lookup_delete_eq.
    - rewrite (callback_unknown_state _ _ _ _ _ Hstate). exact Hstate. }
  simpl. split; [ exact Hgone | ].
  apply callback_unknown_state. exact Hgone.
Qed.

(** X19: when the provider refuses the code, the callback answers 500 and
    the state is consumed all the same: it was popped before the exchange,
    so the flow has to be started again. *)
Theorem failed_exchange_consumes_state (exchange : string -> result value)
  (str_of_exn : exn -> string) (code state : string) (w : world)
  (data : user_data) (e : exn) :
  oauth_states w !! state = Some data ->
  exchange code = Raise e ->
  let answered := calendar_auth_callback exchange str_of_exn code state w in
  fst answered = Raise (HTTPException 500 (VStr (str_of_exn e))) /\
  oauth_states (snd answered) !! state = None /\
  exchanged (snd answered) = exchanged w ++ [code].
Proof.
  intros Hstate Hexchange. simpl.
  rewrite (callback_known_state _ _ _ _ _ data Hstate), Hexchange. simpl.
  repeat split. apply lookup_delete_eq.
Qed.

Lemma failed_exchange_consumes_state_witness :
  oauth_states
    (snd (calendar_auth_callback (fun _ => Raise (ProviderError "invalid_grant"))
            Reading.class_name "abc" "s1"
            {| oauth_states := {[ "s1"%string := {| user_id := "u1" |} ]};
               exchanged := [] |}))
  !! "s1"%string = None.
Proof.
  apply (failed_exchange_consumes_state
           (fun _ => Raise (ProviderError "invalid_grant")) Reading.class_name
           "abc" "s1"
           {| oauth_states := {[ "s1"%string := {| user_id := "u1" |} ]};
              exchanged := [] |}
           {| user_id := "u1" |} (ProviderError "invalid_grant")).
  - apply lookup_singleton_eq.
  - reflexivity.
Defined.

(** X20: the endpoints touch one state only: starting a flow or answering a
    callback for one state leaves every other pending state as it was. *)
Theorem other_states_untouched (get_url : string -> result string)
  (exchange : string -> result value) (str_of_exn : exn -> string)
  (state other user code : string) (w : world) :
  other <> state ->
  oauth_states (snd (start_calendar_auth get_url str_of_exn state user w)) !! other
  = oauth_states w !! other /\
  oauth_states (snd (calendar_auth_callback exchange str_of_exn code state w)) !! other
  = oauth_states w !! other.
Proof.
  intros Hother. split.
  - simpl. apply lookup_insert_ne. congruence.
  - destruct (oauth_states w !! state) as [data | ] eqn:Hstate.
    + rewrite (callback_known_state _ _ _ _ _ data Hstate). simpl.
      apply lookup_delete_ne. congruence.
    + rewrite (callback_unknown_state _ _ _ _ _ Hstate). reflexivity.
Qed.

Lemma other_states_untouched_witness :
  oauth_states
    (snd (calendar_auth_callback (fun _ => Ret VNone) Reading.class_name "abc" "s1"
            {| oauth_states := {[ "s1"%string := {| user_id := "u1" |} ]};
               exchanged := [] |}))
  !! "s2"%string
  = ({[ "s1"%string := {| user_id := "u1" |} ]} : gmap string user_data) !! "s2"%string.
Proof.
  apply (proj2 (other_states_untouched (fun s => Ret s) (fun _ => Ret VNone)
                  Reading.class_name "s1" "s2" "u1" "abc"
                  {| oauth_states := {[ "s1"%string := {| user_id := "u1" |} ]};
                     exchanged := [] |}
                  ltac:(discriminate))).
Defined.

(** X21: for a request that carries both query parameters [code] and
    [state], the handler [calendar_auth_callback] answers 200 exactly when
    the state is pending and the provider accepts the code, and 500
    otherwise. *)
Theorem callback_success_iff (exchange : string -> result value)
  (str_of_exn : exn -> string) (code state : string) (w : world) :
  let status := http_status (fst (calendar_auth_callback exchange str_of_exn
                                    code state w)) in
  (status = 200 \/ status = 500) /\
  (status = 200 <->
   exists data tok, oauth_states w !! state = Some data /\ exchange code = Ret tok).
Proof.
  simpl. destruct (oauth_states w !! state) as [data | ] eqn:Hstate.
  - rewrite (callback_known_state _ _ _ _ _ data Hstate).
    destruct (exchange code) as [tok | e] eqn:He; simpl.
    + split; [ auto | ]. split; [ eauto | reflexivity ].
    + split; [ auto | ]. split; [ discriminate | ].
      intros (d & tok & _ & Htok). discriminate.
  - rewrite (callback_unknown_state _ _ _ _ _ Hstate). simpl.
    split; [ auto | ]. split; [ discriminate | ].
    intros (d & tok & Hd & _). discriminate.
Qed.

(** X22: [start_calendar_auth] records the state for the user before it asks
    for the URL: the state is pending afterwards even when building the URL
    failed (and the answer is 500), and an earlier binding of the same token
    is overwritten. *)
Theorem start_always_records (get_url : string -> result string)
  (str_of_exn : exn -> string) (state user : string) (w : world) :
  let started := start_calendar_auth get_url str_of_exn state user w in
  oauth_states (snd started) !! state = Some {| user_id := user |} /\
  exchanged (snd started) = exchanged w /\
  (forall e, get_url state = Raise e ->
             fst started = Raise (HTTPException 500 (VStr (str_of_exn e)))) /\
  (forall url, get_url state = Ret url ->
               fst started = Ret {| auth_url := url; start_state := state |}).
Proof.
  simpl. split; [ apply lookup_insert_eq | ]. split; [ reflexivity | ].
  split; intros x Hx; rewrite Hx; reflexivity.
Qed.

(* ===================================================================== *)
(** * Calendar events *)
(* ===================================================================== *)

Import CalendarService.

(** X23: [/api/calendar/create-event] refuses with 400, before the calendar
    service is consulted, every request whose [access_token] or
    [event_details] is missing or falsy (null, empty string, empty
    mapping). *)
Theorem create_event_requires_fields
  (create_event : value -> value -> value -> result value)
  (str_of_exn : exn -> string) (request : list (string * value)) :
  truthy (dict_get request "access_token" VNone) = false \/
  truthy (dict_get request "event_details" VNone) = false ->
  Main.create_calendar_event create_event str_of_exn (VDict request)
  = Raise (HTTPException 400 (VStr "Missing required fields")).
Proof.
  intros Hmissing. unfold Main.create_calendar_event. simpl.
  destruct Hmissing as [-> | ->]; simpl; [ reflexivity | ].
  rewrite orb_true_r. reflexivity.
Qed.

Lemma create_event_requires_fields_witness :
  Main.create_calendar_event (fun _ _ _ => Ret VNone) Reading.class_name
    (VDict [("access_token", VStr "t"); ("event_details", VDict [])])
  = Raise (HTTPException 400 (VStr "Missing required fields")).
Proof.
  apply create_event_requires_fields. right. reflexivity.
Defined.

Lemma build_event_missing_key (ed : list (string * value)) :
  lookup_key "title" ed = None \/ lookup_key "start_time" ed = None \/
  lookup_key "end_time" ed = None ->
  build_event (VDict ed) = Raise KeyError.
Proof.
  intros Hmissing. unfold build_event. simpl.
  destruct (lookup_key "title" ed); simpl;
    [ | reflexivity ].
  destruct (lookup_key "start_time" ed); simpl; [ | reflexivity ].
  destruct (lookup_key "end_time" ed); simpl; [ | reflexivity ].
  destruct Hmissing as [H | [H | H]]; discriminate.
Qed.

(** X24: event details without a [title], a [start_time] or an [end_time]
    never reach Google: the service answers a failure payload ([success]
    false) and sends no insert. *)
Theorem incomplete_event_not_sent (open_service : value -> value -> outcome unit)
  (insert_event : value -> string -> outcome value) (str_of_exn : exn -> string)
  (access_token refresh_token : value) (ed : list (string * value)) :
  lookup_key "title" ed = None \/ lookup_key "start_time" ed = None \/
  lookup_key "end_time" ed = None ->
  let done := create_calendar_event open_service insert_event str_of_exn
                access_token refresh_token (VDict ed) in
  snd done = [] /\ exists text, fst done = failure text.
Proof.
  intros Hmissing. simpl. unfold create_calendar_event.
  rewrite (build_event_missing_key ed Hmissing).
  destruct (open_service access_token refresh_token); simpl;
    (split; [ reflexivity | ]); unfold http_failure, unexpected; eauto.
Qed.

Lemma incomplete_event_not_sent_witness :
  snd (create_calendar_event Reading.accepting_service Reading.accepting_insert
         Reading.class_name (VStr "t") VNone
         (VDict [("title", VStr "Dinner"); ("start_time", VStr "2025-01-01T19:00:00")]))
  = [].
Proof.
  apply (incomplete_event_not_sent Reading.accepting_service Reading.accepting_insert
           Reading.class_name (VStr "t") VNone
           [("title", VStr "Dinner"); ("start_time", VStr "2025-01-01T19:00:00")]).
  right. right. reflexivity.
Defined.

Lemma sent_is_built (open_service : value -> value -> outcome unit)
  (insert_event : value -> string -> outcome value) (str_of_exn : exn -> string)
  (access_token refresh_token event_details body : value) (send_updates : string)
  (rest : list (value * string)) :
  snd (create_calendar_event open_service insert_event str_of_exn
         access_token refresh_token event_details)
  = (body, send_updates) :: rest ->
  exists event,
    build_event event_details = Ret event /\ body = VDict event /\ rest = [] /\
    send_updates = (if has_key "attendees" event then "all" else "none")%string.
Proof.
  unfold create_calendar_event.
  destruct (open_service access_token refresh_token); simpl; try discriminate.
  destruct (build_event event_details) as [event | e]; simpl; try discriminate.
  intros H. exists event.
  destruct (insert_event (VDict event) _) as [created | text | e];
    [ destruct (created_answer created) | | ];
    simpl in H; injection H as <- <- <-; repeat split; reflexivity.
Qed.

Lemma build_event_attendees (ed event : list (string * value)) :
  build_event (VDict ed) = Ret event ->
  if truthy (dict_get ed "attendees" VNone)
  then exists emails,
      py_iter (dict_get ed "attendees" VNone) = Ret emails /\
      lookup_key "attendees" event
      = Some (VList (map (fun email => VDict [("email", email)]) emails))
  else lookup_key "attendees" event = None.
Proof.
  unfold build_event. simpl. intros H.
  do 3 bind_inv H. simpl in H. unfold has_key, dict_get in *.
  destruct (lookup_key "attendees" ed) as [att | ]; simpl in H.
  - destruct (truthy att); simpl in H.
    + apply bind_Ret_inv in H. destruct H as (emails & Hiter & H).
      injection H as <-. exists emails. split; [ exact Hiter | ]. reflexivity.
    + injection H as <-. reflexivity.
  - injection H as <-. reflexivity.
Qed.

(** X25: whatever insert the service sends, it is sent with [sendUpdates]
    "all" when the event details hold a truthy [attendees], and then the
    body invites each of them by email in their order; otherwise it is sent
    with "none" and the body has no attendees. *)
Theorem invitations_follow_attendees (open_service : value -> value -> outcome unit)
  (insert_event : value -> string -> outcome value) (str_of_exn : exn -> string)
  (access_token refresh_token body : value) (ed : list (string * value))
  (send_updates : string) (rest : list (value * string)) :
  snd (create_calendar_event open_service insert_event str_of_exn
         access_token refresh_token (VDict ed))
  = (body, send_updates) :: rest ->
  exists event,
    body = VDict event /\ rest = [] /\
    if truthy (dict_get ed "attendees" VNone)
    then send_updates = "all"%string /\
         exists emails,
           py_iter (dict_get ed "attendees" VNone) = Ret emails /\
           lookup_key "attendees" event
           = Some (VList (map (fun email => VDict [("email", email)]) emails))
    else send_updates = "none"%string /\ lookup_key "attendees" event = None.
Proof.
  intros Hsent. apply sent_is_built in Hsent.
  destruct Hsent as (event & Hbuilt & -> & -> & ->).
  exists event. split; [ reflexivity | ]. split; [ reflexivity | ].
  pose proof (build_event_attendees ed event Hbuilt) as Hatt.
  unfold has_key.
  destruct (truthy (dict_get ed "attendees" VNone)).
  - destruct Hatt as (emails & Hiter & Hlookup). rewrite Hlookup. eauto.
  - rewrite Hatt. auto.
Qed.

Lemma invitations_follow_attendees_witness :
  exists event,
    snd (create_calendar_event Reading.accepting_service Reading.accepting_insert
           Reading.class_name (VStr "t") VNone (VDict Cases.dinner))
    = [(VDict event, "all"%string)] /\
    lookup_key "attendees" event
    = Some (VList [VDict [("email", VStr "a@x.org")];
                   VDict [("email", VStr "b@x.org")]]).
Proof.
  eexists. split; [ vm_compute; reflexivity | ].
  destruct (invitations_follow_attendees Reading.accepting_service
              Reading.accepting_insert Reading.class_name (VStr "t") VNone
              _ Cases.dinner _ _ eq_refl)
    as (event & Hbody & _ & _ & emails & Hiter & Hlookup).
  injection Hbody as <-. injection Hiter as <-. exact Hlookup.
Defined.

(** X26: a built event takes its summary from [title], and its start and end
    carry the same time zone: the [timezone] of the details, or
    "America/New_York" when there is none. *)
Theorem event_times_share_zone (ed event : list (string * value)) :
  build_event (VDict ed) = Ret event ->
  exists title start_time end_time,
    lookup_key "title" ed = Some title /\
    lookup_key "start_time" ed = Some start_time /\
    lookup_key "end_time" ed = Some end_time /\
    lookup_key "summary" event = Some title /\
    lookup_key "start" event
    = Some (VDict [("dateTime", start_time);
                   ("timeZone", dict_get ed "timezone" (VStr "America/New_York"))]) /\
    lookup_key "end" event
    = Some (VDict [("dateTime", end_time);
                   ("timeZone", dict_get ed "timezone" (VStr "America/New_York"))]).
Proof.
  unfold build_event. simpl. intros H.
  destruct (lookup_key "title" ed) as [title | ]; simpl in H; [ | discriminate ].
  destruct (lookup_key "start_time" ed) as [start_time | ]; simpl in H;
    [ | discriminate ].
  destruct (lookup_key "end_time" ed) as [end_time | ]; simpl in H;
    [ | discriminate ].
  exists title, start_time, end_time.
  do 3 (split; [ reflexivity | ]).
  apply bind_Ret_inv in H. destruct H as (wanted & _ & H).
  destruct wanted.
  - apply bind_Ret_inv in H. destruct H as (att & _ & H).
    apply bind_Ret_inv in H. destruct H as (emails & _ & H).
    injection H as <-. repeat split; reflexivity.
  - injection H as <-. repeat split; reflexivity.
Qed.

Lemma event_times_share_zone_witness :
  exists event,
    build_event (VDict Cases.dinner) = Ret event /\
    lookup_key "start" event
    = Some (VDict [("dateTime", VStr "2025-01-01T19:00:00");
                   ("timeZone", VStr "America/New_York")]).
Proof.
  eexists. split; [ vm_compute; reflexivity | ].
  destruct (event_times_share_zone Cases.dinner _ eq_refl)
    as (title & start_time & end_time & _ & Hs & _ & _ & Hstart & _).
  injection Hs as <-. exact Hstart.
Defined.

Lemma created_answer_truthy (created answer : value) :
  created_answer created = Ret answer ->
  exists entries, answer = VDict entries /\
                  lookup_key "success" entries = Some (VBool true).
Proof.
  unfold created_answer. intros H. do 3 bind_inv H. injection H as <-.
  eexists. split; reflexivity.
Qed.

(** X27: for a request whose body is a JSON object, the handler of
    [/api/calendar/create-event] over the calendar service answers 200, 400
    or 500, and it returns a body exactly when both fields are truthy, the
    credentials opened, the event was built, Google created it, and the
    created event carries an [id]: the body is then the service's success
    payload. *)
Theorem create_event_endpoint_success (open_service : value -> value -> outcome unit)
  (insert_event : value -> string -> outcome value) (str_of_exn : exn -> string)
  (request : list (string * value)) (answer : value) :
  let access_token := dict_get request "access_token" VNone in
  let refresh_token := dict_get request "refresh_token" VNone in
  let event_details := dict_get request "event_details" VNone in
  let status := http_status (create_event_endpoint open_service insert_event
                               str_of_exn (VDict request)) in
  (status = 200 \/ status = 400 \/ status = 500) /\
  (create_event_endpoint open_service insert_event str_of_exn (VDict request)
   = Ret answer <->
   truthy access_token = true /\ truthy event_details = true /\
   exists event created,
     open_service access_token refresh_token = Done tt /\
     build_event event_details = Ret event /\
     insert_event (VDict event)
       (if has_key "attendees" event then "all" else "none")%string = Done created /\
     created_answer created = Ret answer).
Proof.
  simpl. unfold create_event_endpoint, Main.create_calendar_event. simpl.
  set (access_token := dict_get request "access_token" VNone).
  set (refresh_token := dict_get request "refresh_token" VNone).
  set (event_details := dict_get request "event_details" VNone).
  destruct (truthy access_token); simpl;
    [ | split; [ auto | split; [ discriminate | intros (H & _); discriminate ] ] ].
  destruct (truthy event_details); simpl;
    [ | split; [ auto | split; [ discriminate | intros (_ & H & _); discriminate ] ] ].
  unfold create_calendar_event.
  destruct (open_service access_token refresh_token) as [[] | text | e]; simpl;
    try (split; [ auto | split; [ discriminate |
           intros (_ & _ & ev & cr & H & _); discriminate ] ]).
  destruct (build_event event_details) as [event | e]; simpl;
    [ | split; [ auto | split; [ discriminate |
            intros (_ & _ & ev & cr & _ & H & _); discriminate ] ] ].
  destruct (insert_event (VDict event) _) as [created | text | e] eqn:Hins; simpl;
    try (split; [ auto | split; [ discriminate |
           intros (_ & _ & ev & cr & _ & Hev & H & _);
           injection Hev as <-; rewrite Hins in H; discriminate ] ]).
  destruct (created_answer created) as [ok | e] eqn:Hok; simpl.
  - destruct (created_answer_truthy _ _ Hok) as (entries & -> & Hsuccess).
    simpl. unfold dict_get. rewrite Hsuccess. simpl.
    split; [ auto | ]. split.
    + intros [= <-]. repeat split. exists event, created. auto.
    + intros (_ & _ & ev & cr & _ & Hev & H & Hans).
      injection Hev as <-. rewrite Hins in H. injection H as <-.
      rewrite Hok in Hans. exact Hans.
  - split; [ auto | ]. split; [ discriminate | ].
    intros (_ & _ & ev & cr & _ & Hev & H & Hans).
    injection Hev as <-. rewrite Hins in H. injection H as <-.
    rewrite Hok in Hans. discriminate.
Qed.

(** X28: when Google rejects the insert with an [HttpError], the service
    answers a failure payload and the endpoint turns it into a 500 whose
    detail is the service's error text. *)
Theorem provider_rejection_is_500 (open_service : value -> value -> outcome unit)
  (insert_event : value -> string -> outcome value) (str_of_exn : exn -> string)
  (request event : list (string * value)) (text : string) :
  truthy (dict_get request "access_token" VNone) = true ->
  truthy (dict_get request "event_details" VNone) = true ->
  open_service (dict_get request "access_token" VNone)
    (dict_get request "refresh_token" VNone) = Done tt ->
  build_event (dict_get request "event_details" VNone) = Ret event ->
  insert_event (VDict event)
    (if has_key "attendees" event then "all" else "none")%string = HttpError text ->
  create_event_endpoint open_service insert_event str_of_exn (VDict request)
  = Raise (HTTPException 500
             (VStr ("Failed to create calendar event: " ++ text)%string)).
Proof.
  intros Htok Hdetails Hopen Hbuilt Hinsert.
  unfold create_event_endpoint, Main.create_calendar_event. simpl.
  rewrite Htok, Hdetails. simpl.
  unfold create_calendar_event. rewrite Hopen, Hbuilt. simpl. rewrite Hinsert.
  reflexivity.
Qed.

Lemma provider_rejection_is_500_witness :
  http_status
    (create_event_endpoint Reading.accepting_service
       (fun _ _ => HttpError "403 Forbidden") Reading.class_name
       (VDict [("access_token", VStr "t"); ("event_details", VDict Cases.dinner)]))
  = 500.
Proof.
  erewrite (provider_rejection_is_500 Reading.accepting_service
              (fun _ _ => HttpError "403 Forbidden") Reading.class_name
              [("access_token", VStr "t"); ("event_details", VDict Cases.dinner)]
              _ "403 Forbidden" eq_refl eq_refl eq_refl);
    [ reflexivity | vm_compute; reflexivity | reflexivity ].
Defined.

(* ===================================================================== *)
(** * CORS origins *)
(* ===================================================================== *)

Import Config.

Lemma split_commas_nonempty (s : string) : split_commas s <> [].
Proof.
  destruct s as [ | c rest]; simpl; [ discriminate | ].
  destruct (is_comma c); [ discriminate | ].
  destruct (split_commas rest); discriminate.
Qed.



Lemma join_split_commas (s : string) : join_commas (split_commas s) = s.
Proof.
  induction s as [ | c rest IH]; simpl; [ reflexivity | ].
  destruct (is_comma c) eqn:Hc.
  - apply Ascii.eqb_eq in Hc. subst c.
    pose proof (split_commas_nonempty rest) as Hne.
    destruct (split_commas rest) as [ | piece others]; [ contradiction | ].
    simpl in *. rewrite IH. reflexivity.
  - destruct (split_commas rest) as [ | piece others] eqn:E.
    + exfalso. eapply split_commas_nonempty. exact E.
    + destruct others; simpl in *; rewrite <- IH; reflexivity.
Qed.







Example default_cors_origins :
  parse_cors_origins (VStr "http://localhost:5173,http://127.0.0.1:5173")
  = VList [VStr "http://localhost:5173"; VStr "http://127.0.0.1:5173"].
Proof. vm_compute. reflexivity. Qed.

Example padded_cors_origins :
  parse_cors_origins (VStr " a , b ,,") = VList [VStr "a"; VStr "b"; VStr EmptyString; VStr EmptyString].
Proof. vm_compute. reflexivity. Qed.
